(** * HealthSync: row-level security, messaging, checkups and health logs

    A shallow embedding of the HealthSync portal:
    - the database schema and the row-level-security (RLS) policies of
      [supabase/migrations/20250709101518_lingering_portal.sql];
    - the store operations the pages issue through the Supabase client
      (filtered, ordered and limited selects, inserts, updates), evaluated
      under those policies;
    - the page handlers [DoctorChat], [Chat], [DoctorCheckups], [LogHealth],
      [HealthHistory] and [DoctorDashboard];
    - the ECMAScript built-ins the handlers call ([String.prototype.trim],
      [parseInt], [parseFloat], [||] and [!] on numbers and strings). *)

From Stdlib Require Import ZArith NArith List Lia String.
From stdpp Require Import base decidable list sorting.

Local Open Scope N_scope.

(** ** ECMAScript built-ins used by the pages *)

Module JS.

(** A JavaScript string: its sequence of UTF-16 code units. *)
Definition jsstring := list N.

(** A JavaScript number as the pages produce them: [NaN], an infinity, or
    the finite value [m * 10^e10].  Finite values are kept exact; their
    rounding to binary64 is not represented.  The two agree on the integers
    of magnitude up to 2^53, which binary64 holds exactly, and on what the
    pages do with a short decimal such as 7.5; statements that depend on a
    finite value are made for such values only. *)
Inductive Number :=
| NaN
| Infinity (negative : bool)
| Finite (m : Z) (e10 : Z).

(** The numeric literal [0]. *)
Definition zero : Number := Finite 0 0.

(** [ToBoolean] on numbers: [NaN], [+0] and [-0] are falsy. *)
Definition truthy (n : Number) : bool :=
  match n with
  | NaN => false
  | Infinity _ => true
  | Finite m _ => negb (m =? 0)%Z
  end.

(** [a || b] on numbers. *)
Definition or_else (a b : Number) : Number := if truthy a then a else b.

(** [ToBoolean] on strings: only the empty string is falsy. *)
Definition truthy_string (s : jsstring) : bool :=
  match s with
  | [] => false
  | _ :: _ => true
  end.

(** [s || null] on strings. *)
Definition or_null (s : jsstring) : option jsstring :=
  if truthy_string s then Some s else None.

(** WhiteSpace and LineTerminator code points (ECMA-262, 12.2 and 12.3):
    TAB, LF, VT, FF, CR, SP, NBSP, the space separators (Zs), LS, PS and
    the byte-order mark. *)
Definition isWhiteSpace (c : N) : bool :=
  (c =? 0x9) || (c =? 0xA) || (c =? 0xB) || (c =? 0xC) || (c =? 0xD)
  || (c =? 0x20) || (c =? 0xA0) || (c =? 0x1680)
  || ((0x2000 <=? c) && (c <=? 0x200A))
  || (c =? 0x2028) || (c =? 0x2029) || (c =? 0x202F) || (c =? 0x205F)
  || (c =? 0x3000) || (c =? 0xFEFF).

(** [TrimString(s, start)] *)
Fixpoint trimStart (s : jsstring) : jsstring :=
  match s with
  | [] => []
  | c :: r => if isWhiteSpace c then trimStart r else s
  end.

(** [TrimString(s, end)] *)
Fixpoint trimEnd (s : jsstring) : jsstring :=
  match s with
  | [] => []
  | c :: r =>
      match trimEnd r with
      | [] => if isWhiteSpace c then [] else [c]
      | r' => c :: r'
      end
  end.

(** [String.prototype.trim] *)
Definition trim (s : jsstring) : jsstring := trimEnd (trimStart s).

(** Value of a code unit as a digit: [0-9], [a-z] and [A-Z]. *)
Definition digit_value (c : N) : option N :=
  if (48 <=? c) && (c <=? 57) then Some (c - 48)
  else if (97 <=? c) && (c <=? 122) then Some (c - 97 + 10)
  else if (65 <=? c) && (c <=? 90) then Some (c - 65 + 10)
  else None.

(** The digit values of the longest prefix of radix-[R] digits. *)
Fixpoint digits_prefix (R : N) (s : jsstring) : list N :=
  match s with
  | [] => []
  | c :: r =>
      match digit_value c with
      | Some d => if d <? R then d :: digits_prefix R r else []
      | None => []
      end
  end.

(** The integer denoted by digit values in radix [R]. *)
Definition digits_to_Z (R : N) (ds : list N) : Z :=
  fold_left (fun acc d => (acc * Z.of_N R + Z.of_N d)%Z) ds 0%Z.

(** A leading [+] (43) or [-] (45): whether it is [-], and the rest. *)
Definition strip_sign (s : jsstring) : bool * jsstring :=
  match s with
  | 45 :: r => (true, r)
  | 43 :: r => (false, r)
  | _ => (false, s)
  end.

Definition signed (negative : bool) (z : Z) : Z :=
  if negative then (- z)%Z else z.

(** [parseInt(string)] with no radix argument (ECMA-262, 19.2.5).  The
    result is the integer read, exactly: this is the built-in's result for
    integers of magnitude up to 2^53; beyond, the built-in rounds to
    binary64 and may give an infinity. *)
Definition parseInt (string : jsstring) : Number :=
  let '(negative, rest) := strip_sign (trimStart string) in
  let '(R, rest) :=
    match rest with
    | 48 :: x :: r => if (x =? 120) || (x =? 88) then (16, r) else (10, rest)
    | _ => (10, rest)
    end in
  match digits_prefix R rest with
  | [] => NaN
  | ds => Finite (signed negative (digits_to_Z R ds)) 0
  end.

(** The code units of ["Infinity"]. *)
Definition Infinity_text : jsstring := [73; 110; 102; 105; 110; 105; 116; 121].

Fixpoint starts_with (p s : jsstring) : bool :=
  match p, s with
  | [], _ => true
  | _ :: _, [] => false
  | a :: p', b :: s' => (a =? b) && starts_with p' s'
  end.

(** The exponent of an [ExponentPart] at the head of [s], or [0] when [s]
    does not start with one ([e] or [E], an optional sign, digits). *)
Definition exponent_part (s : jsstring) : Z :=
  match s with
  | c :: r =>
      if (c =? 101) || (c =? 69) then
        let '(negative, r') := strip_sign r in
        match digits_prefix 10 r' with
        | [] => 0%Z
        | ds => signed negative (digits_to_Z 10 ds)
        end
      else 0%Z
  | [] => 0%Z
  end.

(** [parseFloat(string)] (ECMA-262, 19.2.4): the value of the longest
    prefix of the left-trimmed input that is a [StrDecimalLiteral].  The
    result is that decimal value, exactly; the built-in rounds it to
    binary64 (to 0 or to an infinity when it is out of range). *)
Definition parseFloat (string : jsstring) : Number :=
  let '(negative, rest) := strip_sign (trimStart string) in
  if starts_with Infinity_text rest then Infinity negative
  else
    let ip := digits_prefix 10 rest in
    let rest1 := drop (length ip) rest in
    let '(fp, rest2) :=
      match rest1 with
      | 46 :: r => let fp := digits_prefix 10 r in (fp, drop (length fp) r)
      | _ => ([], rest1)
      end in
    match ip ++ fp with
    | [] => NaN
    | ds => Finite (signed negative (digits_to_Z 10 ds))
                   (exponent_part rest2 - Z.of_nat (length fp))
    end.

(** Code units of an ASCII literal, for writing concrete inputs. *)
Fixpoint lit (s : string) : jsstring :=
  match s with
  | EmptyString => []
  | String a r => Ascii.N_of_ascii a :: lit r
  end.

(** An integer literal. *)
Definition int (z : Z) : Number := Finite z 0.

(** [a < b] on numbers (ECMA-262, 7.2.13 and 6.1.6.1.12): false as soon
    as one side is [NaN]; finite values are compared exactly. *)
Definition lt (a b : Number) : bool :=
  match a, b with
  | NaN, _ => false
  | _, NaN => false
  | Infinity na, Infinity nb => na && negb nb
  | Infinity na, Finite _ _ => na
  | Finite _ _, Infinity nb => negb nb
  | Finite m1 e1, Finite m2 e2 =>
      let e0 := Z.min e1 e2 in
      (m1 * 10 ^ (e1 - e0) <? m2 * 10 ^ (e2 - e0))%Z
  end.

(** [a > b] *)
Definition gt (a b : Number) : bool := lt b a.

End JS.

(** ** Database schema *)

Module Schema.

(** [uuid] columns: 128-bit identifiers. *)
Definition uuid := N.
(** [timestamptz] columns, as an instant on the store's clock. *)
Definition timestamptz := Z.
Bind Scope Z_scope with timestamptz.
(** [date] columns, as the day number of the calendar date. *)
Definition date := Z.
Bind Scope Z_scope with date.
(** [text] values as the client holds them: UTF-16 code units. *)
Definition text := list N.

(** [role text NOT NULL CHECK (role IN ('doctor', 'patient'))] *)
Inductive Role := doctor | patient.

(** [status text NOT NULL DEFAULT 'upcoming'
    CHECK (status IN ('upcoming', 'completed', 'cancelled'))] *)
Inductive Status := upcoming | completed | cancelled.

Definition Role_eqb (a b : Role) : bool :=
  match a, b with
  | doctor, doctor | patient, patient => true
  | _, _ => false
  end.

Definition Status_eqb (a b : Status) : bool :=
  match a, b with
  | upcoming, upcoming | completed, completed | cancelled, cancelled => true
  | _, _ => false
  end.

Record User := mkUser {
  u_id : uuid;
  u_email : text;
  u_full_name : text;
  u_role : Role;
  u_avatar_url : option text;
  u_created_at : timestamptz;
  u_updated_at : timestamptz
}.

(** The metric columns hold the numbers the client submitted.  Their
    conversion to [integer] and [decimal(3,1)] is not represented: a row is
    what the store holds when the numbers submitted fit the columns
    ([Store.fits_columns]). *)
Record HealthLog := mkHealthLog {
  h_id : uuid;
  h_user_id : uuid;
  h_date : date;
  h_steps : JS.Number;
  h_water_ml : JS.Number;
  h_heart_rate : JS.Number;
  h_sleep_hours : JS.Number;
  h_notes : option text;
  h_created_at : timestamptz
}.

Record DoctorPatientLink := mkLink {
  l_id : uuid;
  l_doctor_id : uuid;
  l_patient_id : uuid;
  l_created_at : timestamptz
}.

Record Message := mkMessage {
  m_id : uuid;
  m_sender_id : uuid;
  m_receiver_id : uuid;
  m_message : text;
  m_timestamp : timestamptz
}.

Record Checkup := mkCheckup {
  c_id : uuid;
  c_doctor_id : uuid;
  c_patient_id : uuid;
  c_date : timestamptz;
  c_purpose : text;
  c_status : Status;
  c_notes : option text;
  c_created_at : timestamptz
}.

(** The five tables.  A table is the list of its rows. *)
Record DB := mkDB {
  users : list User;
  health_logs : list HealthLog;
  doctor_patient_links : list DoctorPatientLink;
  messages : list Message;
  checkups : list Checkup
}.

(** [id uuid PRIMARY KEY] on [users] and on [checkups]. *)
Definition users_pkey (db : DB) : Prop := List.NoDup (map u_id (users db)).
Definition checkups_pkey (db : DB) : Prop := List.NoDup (map c_id (checkups db)).

End Schema.

(** ** Row-level security *)

Module RLS.
Import Schema.

Inductive Command := SELECT | INSERT | UPDATE | DELETE.

Definition Command_eqb (a b : Command) : bool :=
  match a, b with
  | SELECT, SELECT | INSERT, INSERT | UPDATE, UPDATE | DELETE, DELETE => true
  | _, _ => false
  end.

(** The [FOR] clause of [CREATE POLICY]. *)
Inductive PolicyFor := FOR_ALL | FOR (c : Command).

(** A policy expression is evaluated against the database, the session's
    [auth.uid()] and the row. *)
Definition Expr (Row : Type) := DB -> uuid -> Row -> bool.

(** [CREATE POLICY name ON table FOR cmd TO authenticated
    USING (...) WITH CHECK (...)]; all policies are permissive. *)
Record Policy (Row : Type) := mkPolicy {
  pol_name : string;
  pol_for : PolicyFor;
  pol_using : option (Expr Row);
  pol_with_check : option (Expr Row)
}.
Arguments mkPolicy {Row}.
Arguments pol_name {Row}.
Arguments pol_for {Row}.
Arguments pol_using {Row}.
Arguments pol_with_check {Row}.

Definition applies {Row} (c : Command) (p : Policy Row) : bool :=
  match pol_for p with
  | FOR_ALL => true
  | FOR c' => Command_eqb c c'
  end.

(** The expression a policy contributes to the visibility of existing
    rows; a policy without [USING] contributes none. *)
Definition using_qual {Row} (p : Policy Row) : Expr Row :=
  match pol_using p with
  | Some e => e
  | None => fun _ _ _ => false
  end.

(** The expression a policy contributes to the check of new rows:
    [WITH CHECK], or [USING] when there is no [WITH CHECK]. *)
Definition check_qual {Row} (p : Policy Row) : Expr Row :=
  match pol_with_check p with
  | Some e => e
  | None => using_qual p
  end.

(** With RLS enabled, an existing row is visible to command [c] when some
    applicable policy's [USING] holds; with no such policy it is not. *)
Definition passes_using {Row} (ps : list (Policy Row)) (c : Command) : Expr Row :=
  fun db uid row =>
    existsb (fun p => applies c p && using_qual p db uid row) ps.

(** A new row is accepted for command [c] when some applicable policy's
    check holds. *)
Definition passes_check {Row} (ps : list (Policy Row)) (c : Command) : Expr Row :=
  fun db uid row =>
    existsb (fun p => applies c p && check_qual p db uid row) ps.

(** *** Policies on [users] *)

Definition users_read_own : Policy User :=
  mkPolicy "Users can read own profile" (FOR SELECT)
    (Some (fun _ uid u => uid =? u_id u)) None.

Definition users_update_own : Policy User :=
  mkPolicy "Users can update own profile" (FOR UPDATE)
    (Some (fun _ uid u => uid =? u_id u)) None.

Definition users_policies := [users_read_own; users_update_own].

(** *** Policies on [doctor_patient_links] *)

Definition links_doctor_view : Policy DoctorPatientLink :=
  mkPolicy "Doctors can view their patient links" (FOR SELECT)
    (Some (fun _ uid l => l_doctor_id l =? uid)) None.

Definition links_patient_view : Policy DoctorPatientLink :=
  mkPolicy "Patients can view their doctor links" (FOR SELECT)
    (Some (fun _ uid l => l_patient_id l =? uid)) None.

Definition links_policies := [links_doctor_view; links_patient_view].

(** What a sub-select inside a policy reads: the rows of the table that
    the session may itself select. *)
Definition select_users (db : DB) (uid : uuid) : list User :=
  List.filter (passes_using users_policies SELECT db uid) (users db).

Definition select_links (db : DB) (uid : uuid) : list DoctorPatientLink :=
  List.filter (passes_using links_policies SELECT db uid)
              (doctor_patient_links db).

(** *** Policies on [health_logs] *)

Definition health_logs_manage_own : Policy HealthLog :=
  mkPolicy "Patients can manage own health logs" FOR_ALL
    (Some (fun _ uid h => uid =? h_user_id h)) None.

(** [EXISTS (SELECT 1 FROM doctor_patient_links dpl
             JOIN users u ON u.id = dpl.doctor_id
             WHERE dpl.patient_id = health_logs.user_id
             AND dpl.doctor_id = auth.uid() AND u.role = 'doctor')] *)
Definition health_logs_doctor_view : Policy HealthLog :=
  mkPolicy "Doctors can view assigned patients' health logs" (FOR SELECT)
    (Some (fun db uid h =>
       existsb (fun dpl =>
         existsb (fun u =>
           (u_id u =? l_doctor_id dpl)
           && (l_patient_id dpl =? h_user_id h)
           && (l_doctor_id dpl =? uid)
           && Role_eqb (u_role u) doctor)
           (select_users db uid))
         (select_links db uid)))
    None.

Definition health_logs_policies :=
  [health_logs_manage_own; health_logs_doctor_view].

(** *** Policies on [messages] *)

Definition messages_view : Policy Message :=
  mkPolicy "Users can view messages they sent or received" (FOR SELECT)
    (Some (fun _ uid m => (m_sender_id m =? uid) || (m_receiver_id m =? uid)))
    None.

Definition messages_send : Policy Message :=
  mkPolicy "Users can send messages" (FOR INSERT)
    None (Some (fun _ uid m => m_sender_id m =? uid)).

Definition messages_policies := [messages_view; messages_send].

(** *** Policies on [checkups] *)

(** [doctor_id = auth.uid() OR
    (patient_id = auth.uid() AND EXISTS
      (SELECT 1 FROM users WHERE id = auth.uid() AND role = 'patient'))] *)
Definition checkups_manage : Policy Checkup :=
  mkPolicy "Doctors can manage checkups for their patients" FOR_ALL
    (Some (fun db uid c =>
       (c_doctor_id c =? uid)
       || ((c_patient_id c =? uid)
           && existsb (fun u => (u_id u =? uid) && Role_eqb (u_role u) patient)
                      (select_users db uid))))
    None.

Definition checkups_policies := [checkups_manage].

(** The outcome of evaluating the policies of a table for a request. *)
Inductive Access := Allow | Deny.

Definition access (b : bool) : Access := if b then Allow else Deny.

(** Reading an existing row. *)
Definition read_health_log (db : DB) (uid : uuid) (h : HealthLog) : Access :=
  access (passes_using health_logs_policies SELECT db uid h).

Definition read_message (db : DB) (uid : uuid) (m : Message) : Access :=
  access (passes_using messages_policies SELECT db uid m).

(** Creating a row. *)
Definition create_message (db : DB) (uid : uuid) (m : Message) : Access :=
  access (passes_check messages_policies INSERT db uid m).

(** Access of command [c] to a checkup: existing rows are filtered by
    [USING] (select, update, delete), new rows are checked (insert, and
    the row an update writes). *)
Definition checkup_using (c : Command) (db : DB) (uid : uuid) (k : Checkup) : Access :=
  access (passes_using checkups_policies c db uid k).

Definition checkup_check (c : Command) (db : DB) (uid : uuid) (k : Checkup) : Access :=
  access (passes_check checkups_policies c db uid k).

End RLS.

(** ** The store: selects, inserts and updates under the policies *)

Module Store.
Import Schema RLS.

(** Errors the store reports, by PostgreSQL condition name. *)
Inductive StoreError :=
| insufficient_privilege        (* 42501: row violates a row-level security policy *)
| foreign_key_violation         (* 23503 *)
| invalid_text_representation.  (* 22P02: not a uuid *)

Inductive Result (A : Type) :=
| Ok (a : A)
| Err (e : StoreError).
Arguments Ok {A}.
Arguments Err {A}.

(** A text the client sends where a uuid is expected: either the text of a
    uuid or some other text. *)
Inductive UuidText :=
| is_uuid (id : uuid)
| not_uuid.

(** The uuid input conversion of the store. *)
Definition uuid_in (t : UuidText) : Result uuid :=
  match t with
  | is_uuid id => Ok id
  | not_uuid => Err invalid_text_representation
  end.

(** A client value written into a filter by a template literal or by
    [.eq]: [undefined] is written as the text [undefined]. *)
Definition interpolate (v : option uuid) : UuidText :=
  match v with
  | Some id => is_uuid id
  | None => not_uuid
  end.

(** [.from(table).select(...)]: the rows the session may select. *)
Definition select_messages (db : DB) (uid : uuid) : list Message :=
  List.filter (passes_using messages_policies SELECT db uid) (messages db).

Definition select_health_logs (db : DB) (uid : uuid) : list HealthLog :=
  List.filter (passes_using health_logs_policies SELECT db uid) (health_logs db).

Definition select_checkups (db : DB) (uid : uuid) : list Checkup :=
  List.filter (passes_using checkups_policies SELECT db uid) (checkups db).

(** [.order(column, { ascending })] on a column with key [key]. *)
Definition ascending_by {A} (key : A -> Z) : relation A :=
  fun a b => (key a <= key b)%Z.
Definition descending_by {A} (key : A -> Z) : relation A :=
  fun a b => (key b <= key a)%Z.

#[global] Instance ascending_by_dec {A} (key : A -> Z) (a b : A) :
  Decision (ascending_by key a b) := Z_le_dec (key a) (key b).
#[global] Instance descending_by_dec {A} (key : A -> Z) (a b : A) :
  Decision (descending_by key a b) := Z_le_dec (key b) (key a).

Definition order {A} (key : A -> Z) (ascending : bool) (rows : list A) : list A :=
  if ascending then merge_sort (ascending_by key) rows
  else merge_sort (descending_by key) rows.

(** [.limit(n)] *)
Definition limit {A} (n : nat) (rows : list A) : list A := take n rows.

(** [.or('and(sender_id.eq.a,receiver_id.eq.b),and(sender_id.eq.b,receiver_id.eq.a)')] *)
Definition thread_filter (a b : uuid) (m : Message) : bool :=
  ((m_sender_id m =? a) && (m_receiver_id m =? b))
  || ((m_sender_id m =? b) && (m_receiver_id m =? a)).

(** [.from('messages').select(...).or(...).order('timestamp', { ascending: true })];
    the embedded [sender] and [receiver] profiles are not represented. *)
Definition messages_thread (db : DB) (uid : uuid) (a b : UuidText) : Result (list Message) :=
  match uuid_in a, uuid_in b with
  | Ok a, Ok b =>
      Ok (order m_timestamp true (List.filter (thread_filter a b) (select_messages db uid)))
  | Err e, _ => Err e
  | _, Err e => Err e
  end.

(** [.from('health_logs').select('*').eq('user_id', id).order('date', { ascending: false })] *)
Definition health_logs_of (db : DB) (uid : uuid) (id : UuidText) : Result (list HealthLog) :=
  match uuid_in id with
  | Ok id =>
      Ok (order h_date false
            (List.filter (fun h => h_user_id h =? id) (select_health_logs db uid)))
  | Err e => Err e
  end.

(** [.from('checkups').select(...).eq('doctor_id', id).order('date', { ascending: true })] *)
Definition checkups_of_doctor (db : DB) (uid : uuid) (id : UuidText) : Result (list Checkup) :=
  match uuid_in id with
  | Ok id =>
      Ok (order c_date true
            (List.filter (fun k => c_doctor_id k =? id) (select_checkups db uid)))
  | Err e => Err e
  end.

Definition user_exists (db : DB) (id : uuid) : bool :=
  existsb (fun u => u_id u =? id) (users db).

(** The object given to [.from('messages').insert(...)]. *)
Record MessageInsert := mkMessageInsert {
  mi_sender_id : uuid;
  mi_receiver_id : UuidText;
  mi_message : text
}.

(** The new row: [id] and [timestamp] take their column defaults
    [gen_random_uuid()] and [now()], whose values are [new_id] and [now]. *)
Definition message_row (new_id : uuid) (now : timestamptz) (sender receiver : uuid)
    (message : text) : Message :=
  mkMessage new_id sender receiver message now.

Definition with_messages (db : DB) (ms : list Message) : DB :=
  mkDB (users db) (health_logs db) (doctor_patient_links db) ms (checkups db).

Definition insert_message (db : DB) (uid : uuid) (new_id : uuid) (now : timestamptz)
    (v : MessageInsert) : Result DB :=
  match uuid_in (mi_receiver_id v) with
  | Err e => Err e
  | Ok receiver =>
      let row := message_row new_id now (mi_sender_id v) receiver (mi_message v) in
      if negb (passes_check messages_policies INSERT db uid row) then
        Err insufficient_privilege
      else if negb (user_exists db (m_sender_id row) && user_exists db (m_receiver_id row)) then
        Err foreign_key_violation
      else Ok (with_messages db (messages db ++ [row]))
  end.

(** The object given to [.from('health_logs').insert(...)]. *)
Record HealthLogInsert := mkHealthLogInsert {
  hi_user_id : uuid;
  hi_date : date;
  hi_steps : JS.Number;
  hi_water_ml : JS.Number;
  hi_heart_rate : JS.Number;
  hi_sleep_hours : JS.Number;
  hi_notes : option text
}.

(** The numbers an [integer] column holds: the integers of 32 bits. *)
Definition fits_integer (n : JS.Number) : bool :=
  match n with
  | JS.Finite z e => (e =? 0)%Z && (-2147483648 <=? z)%Z && (z <=? 2147483647)%Z
  | _ => false
  end.

(** A finite number that is a multiple of 0.1, in tenths. *)
Definition tenths (n : JS.Number) : option Z :=
  match n with
  | JS.Finite m e =>
      if (-1 <=? e)%Z then Some (m * 10 ^ (e + 1))%Z
      else if (m mod 10 ^ (-1 - e) =? 0)%Z then Some (m / 10 ^ (-1 - e))%Z
      else None
  | _ => None
  end.

(** The numbers a [decimal(3,1)] column holds without rounding: the
    multiples of 0.1 from -99.9 to 99.9. *)
Definition fits_decimal_3_1 (n : JS.Number) : bool :=
  match tenths n with
  | Some t => (-1000 <? t)%Z && (t <? 1000)%Z
  | None => false
  end.

(** The submitted metrics fit the columns [steps integer],
    [water_ml integer], [heart_rate integer], [sleep_hours decimal(3,1)]:
    the store converts them without an error and holds them unchanged. *)
Definition fits_columns (v : HealthLogInsert) : bool :=
  fits_integer (hi_steps v) && fits_integer (hi_water_ml v)
  && fits_integer (hi_heart_rate v) && fits_decimal_3_1 (hi_sleep_hours v).

Definition health_log_row (new_id : uuid) (now : timestamptz) (v : HealthLogInsert) : HealthLog :=
  mkHealthLog new_id (hi_user_id v) (hi_date v) (hi_steps v) (hi_water_ml v)
              (hi_heart_rate v) (hi_sleep_hours v) (hi_notes v) now.

Definition with_health_logs (db : DB) (hs : list HealthLog) : DB :=
  mkDB (users db) hs (doctor_patient_links db) (messages db) (checkups db).

(** The insert of a health log whose metrics fit the columns
    ([fits_columns]); the conversion of other metrics (rounding to one
    decimal, out-of-range errors, null for an infinity) is not
    represented, and nothing is stated about them. *)
Definition insert_health_log (db : DB) (uid : uuid) (new_id : uuid) (now : timestamptz)
    (v : HealthLogInsert) : Result DB :=
  let row := health_log_row new_id now v in
  if negb (passes_check health_logs_policies INSERT db uid row) then
    Err insufficient_privilege
  else if negb (user_exists db (h_user_id row)) then
    Err foreign_key_violation
  else Ok (with_health_logs db (health_logs db ++ [row])).

Definition with_checkups (db : DB) (cs : list Checkup) : DB :=
  mkDB (users db) (health_logs db) (doctor_patient_links db) (messages db) cs.

(** [.from('checkups').update(set).eq('id', id)]: the rows with that id
    that the session may update are rewritten by [set]; the rows written
    must pass the check, and the others are left as they are. *)
Definition update_checkups (db : DB) (uid : uuid) (id : uuid)
    (set : Checkup -> Checkup) : Result DB :=
  let target k := (c_id k =? id) && passes_using checkups_policies UPDATE db uid k in
  let written := map set (List.filter target (checkups db)) in
  if negb (forallb (passes_check checkups_policies UPDATE db uid) written) then
    Err insufficient_privilege
  else if negb (forallb (fun k => user_exists db (c_doctor_id k)
                                  && user_exists db (c_patient_id k)) written) then
    Err foreign_key_violation
  else Ok (with_checkups db (map (fun k => if target k then set k else k) (checkups db))).

(** The object given to [.from('checkups').insert(...)] and to
    [.from('checkups').update(...)] by the checkup form. *)
Record CheckupData := mkCheckupData {
  cd_doctor_id : uuid;
  cd_patient_id : UuidText;
  cd_date : timestamptz;
  cd_purpose : text;
  cd_notes : option text;
  cd_status : Status
}.

Definition insert_checkup (db : DB) (uid : uuid) (new_id : uuid) (now : timestamptz)
    (v : CheckupData) : Result DB :=
  match uuid_in (cd_patient_id v) with
  | Err e => Err e
  | Ok pid =>
      let row := mkCheckup new_id (cd_doctor_id v) pid (cd_date v) (cd_purpose v)
                           (cd_status v) (cd_notes v) now in
      if negb (passes_check checkups_policies INSERT db uid row) then
        Err insufficient_privilege
      else if negb (user_exists db (c_doctor_id row) && user_exists db (c_patient_id row)) then
        Err foreign_key_violation
      else Ok (with_checkups db (checkups db ++ [row]))
  end.

(** [.from('checkups').update(v).eq('id', id)] *)
Definition update_checkup_data (db : DB) (uid : uuid) (id : uuid) (v : CheckupData)
    : Result DB :=
  match uuid_in (cd_patient_id v) with
  | Err e => Err e
  | Ok pid =>
      update_checkups db uid id
        (fun k => mkCheckup (c_id k) (cd_doctor_id v) pid (cd_date v) (cd_purpose v)
                            (cd_status v) (cd_notes v) (c_created_at k))
  end.

End Store.

(** ** Requests for one row, embedded profiles, upcoming checkups *)

Module Rest.
Import Schema RLS Store.

(** What a request can fail with: an error of the store, or the error of
    [.single()] when the result is not exactly one row. *)
Inductive RestError :=
| store_error (e : StoreError)
| not_single_row.

Inductive Response (A : Type) :=
| Data (data : A)
| Error (error : RestError).
Arguments Data {A}.
Arguments Error {A}.

(** [.single()] *)
Definition single {A} (r : Result (list A)) : Response A :=
  match r with
  | Err e => Error (store_error e)
  | Ok [row] => Data row
  | Ok _ => Error not_single_row
  end.

(** [.from('users').select('*').eq('id', id)] *)
Definition users_by_id (db : DB) (uid : uuid) (id : UuidText) : Result (list User) :=
  match uuid_in id with
  | Ok id => Ok (List.filter (fun u => u_id u =? id) (select_users db uid))
  | Err e => Err e
  end.

(** An embedded profile [users!..._fkey( * )]: the row of [users] with that
    id, when the session may select it, and null otherwise. *)
Definition embed_user (db : DB) (uid : uuid) (id : uuid) : option User :=
  List.find (fun u => u_id u =? id) (select_users db uid).

(** [.from('doctor_patient_links')
      .select('doctor:users!doctor_patient_links_doctor_id_fkey( * )')
      .eq('patient_id', id)]: the [doctor] of each row. *)
Definition doctors_of_patient (db : DB) (uid : uuid) (id : UuidText)
    : Result (list (option User)) :=
  match uuid_in id with
  | Ok id =>
      Ok (map (fun l => embed_user db uid (l_doctor_id l))
              (List.filter (fun l => l_patient_id l =? id) (select_links db uid)))
  | Err e => Err e
  end.

(** [.from('doctor_patient_links')
      .select('patient:users!doctor_patient_links_patient_id_fkey( * )')
      .eq('doctor_id', id)]: the [patient] of each row. *)
Definition patients_of_doctor (db : DB) (uid : uuid) (id : UuidText)
    : Result (list (option User)) :=
  match uuid_in id with
  | Ok id =>
      Ok (map (fun l => embed_user db uid (l_patient_id l))
              (List.filter (fun l => l_doctor_id l =? id) (select_links db uid)))
  | Err e => Err e
  end.

(** [.from('checkups').select(...).eq(column, id).eq('status', 'upcoming')
      .order('date', { ascending: true })], for [column] one of
    [doctor_id] and [patient_id]; the embedded names are not
    represented. *)
Definition upcoming_checkups (column : Checkup -> uuid) (db : DB) (uid : uuid)
    (id : UuidText) : Result (list Checkup) :=
  match uuid_in id with
  | Ok id =>
      Ok (order c_date true
            (List.filter (fun k => Status_eqb (c_status k) upcoming)
               (List.filter (fun k => column k =? id) (select_checkups db uid))))
  | Err e => Err e
  end.

End Rest.

(** ** Pages

    A page handler runs in the session of the signed-in [user]: the store
    evaluates its requests with [auth.uid()] equal to [user.id].  A handler
    returns the database it leaves, the component state it sets, and the
    toasts it raises. *)

Module UI.

(** [toast.success(msg)] and [toast.error(error.message || fallback)]. *)
Inductive Toast :=
| toast_success (msg : string)
| toast_error (e : Store.StoreError) (fallback : string).

Definition is_error (t : Toast) : bool :=
  match t with
  | toast_success _ => false
  | toast_error _ _ => true
  end.

End UI.

Module DoctorChat.
Import Schema Store UI.

Record State := mkState {
  st_messages : list Message;
  newMessage : JS.jsstring;
  patient : option User;
  loading : bool;
  sending : bool
}.

Record Outcome := mkOutcome {
  out_db : DB;
  out_state : State;
  out_toasts : list Toast
}.

(** [fetchMessages]: the list given to [setMessages], when it is called.
    [patientId] is the route parameter; a missing (or empty) one is
    [None]. *)
Definition fetchMessages (db : DB) (patientId : option UuidText) (user : option User)
    : option (list Message) :=
  match patientId, user with
  | Some pid, Some u =>
      match messages_thread db (u_id u) (is_uuid (u_id u)) pid with
      | Ok data => Some data
      | Err _ => None
      end
  | _, _ => None
  end.

Definition refresh (st : State) (data : option (list Message)) : State :=
  match data with
  | Some ms => mkState ms (newMessage st) (patient st) false (sending st)
  | None => mkState (st_messages st) (newMessage st) (patient st) false (sending st)
  end.

(** [sendMessage]; [new_id] and [now] are the defaults the store gives the
    new row. *)
Definition sendMessage (db : DB) (new_id : uuid) (now : timestamptz)
    (patientId : option UuidText) (user : option User) (st : State) : Outcome :=
  let ignored := mkOutcome db st [] in
  if negb (JS.truthy_string (JS.trim (newMessage st))) then ignored else
  match patientId with None => ignored | Some pid =>
  match user with None => ignored | Some u =>
  if sending st then ignored else
  match insert_message db (u_id u) new_id now
          (mkMessageInsert (u_id u) pid (JS.trim (newMessage st))) with
  | Err e =>
      mkOutcome db
        (mkState (st_messages st) (newMessage st) (patient st) (loading st) false)
        [toast_error e "Error sending message"]
  | Ok db' =>
      mkOutcome db'
        (refresh (mkState (st_messages st) [] (patient st) (loading st) false)
                 (fetchMessages db' patientId user))
        []
  end end end.

(** What [fetchPatient] ends with: [setPatient(data)], or, on an error,
    [navigate('/doctor/dashboard')]. *)
Inductive PatientFetch :=
| setPatient (data : User)
| navigate_dashboard.

(** [fetchPatient], in the session of [user]. *)
Definition fetchPatient (db : DB) (patientId : UuidText) (user : User) : PatientFetch :=
  match Rest.single (Rest.users_by_id db (u_id user) patientId) with
  | Rest.Data data => setPatient data
  | Rest.Error _ => navigate_dashboard
  end.

End DoctorChat.

Module Chat.
Import Schema Store UI.

Record State := mkState {
  st_messages : list Message;
  newMessage : JS.jsstring;
  doctor : option User;
  loading : bool;
  sending : bool
}.

Record Outcome := mkOutcome {
  out_db : DB;
  out_state : State;
  out_toasts : list Toast
}.

(** [fetchMessages]: it returns early only when both [doctor] and [user]
    are missing; a missing one of the two is written into the filter as
    the text [undefined]. *)
Definition fetchMessages (db : DB) (doctor : option User) (user : option User)
    : option (list Message) :=
  match doctor, user with
  | None, None => None
  | _, _ =>
      match user with
      | Some u =>
          match messages_thread db (u_id u) (interpolate (Some (u_id u)))
                  (interpolate (option_map u_id doctor)) with
          | Ok data => Some data
          | Err _ => None
          end
      | None => None
      end
  end.

Definition refresh (st : State) (data : option (list Message)) : State :=
  match data with
  | Some ms => mkState ms (newMessage st) (doctor st) false (sending st)
  | None => mkState (st_messages st) (newMessage st) (doctor st) false (sending st)
  end.

Definition sendMessage (db : DB) (new_id : uuid) (now : timestamptz)
    (user : option User) (st : State) : Outcome :=
  let ignored := mkOutcome db st [] in
  if negb (JS.truthy_string (JS.trim (newMessage st))) then ignored else
  match doctor st with None => ignored | Some d =>
  match user with None => ignored | Some u =>
  if sending st then ignored else
  match insert_message db (u_id u) new_id now
          (mkMessageInsert (u_id u) (is_uuid (u_id d)) (JS.trim (newMessage st))) with
  | Err e =>
      mkOutcome db
        (mkState (st_messages st) (newMessage st) (doctor st) (loading st) false)
        [toast_error e "Error sending message"]
  | Ok db' =>
      mkOutcome db'
        (refresh (mkState (st_messages st) [] (doctor st) (loading st) false)
                 (fetchMessages db' (doctor st) user))
        []
  end end end.

(** [fetchDoctor]: the value given to [setDoctor], when it is called;
    that value is [data.doctor], the embedded profile, which may be
    null. *)
Definition fetchDoctor (db : DB) (user : option User) : option (option User) :=
  match user with
  | Some u =>
      match Rest.single (Rest.doctors_of_patient db (u_id u) (interpolate (Some (u_id u)))) with
      | Rest.Data d => Some d
      | Rest.Error _ => None
      end
  | None => None
  end.

(** The page state once [fetchDoctor] has run. *)
Definition doctor_fetched (st : State) (r : option (option User)) : State :=
  match r with
  | Some d => mkState (st_messages st) (newMessage st) d (loading st) (sending st)
  | None => st
  end.

End Chat.

Module DoctorCheckups.
Import Schema Store UI.

(** The [status] argument of [updateCheckupStatus]: ['completed' | 'cancelled']. *)
Inductive StatusArg := to_completed | to_cancelled.

Definition status_of (s : StatusArg) : Status :=
  match s with
  | to_completed => completed
  | to_cancelled => cancelled
  end.

Definition status_name (s : StatusArg) : string :=
  match s with
  | to_completed => "completed"
  | to_cancelled => "cancelled"
  end.

Definition set_status (s : Status) (k : Checkup) : Checkup :=
  mkCheckup (c_id k) (c_doctor_id k) (c_patient_id k) (c_date k) (c_purpose k)
            s (c_notes k) (c_created_at k).

(** [fetchCheckups]: the list given to [setCheckups], when it is called. *)
Definition fetchCheckups (db : DB) (user : option User) : option (list Checkup) :=
  match user with
  | Some u =>
      match checkups_of_doctor db (u_id u) (interpolate (Some (u_id u))) with
      | Ok data => Some data
      | Err _ => None
      end
  | None => None
  end.

Record Outcome := mkOutcome {
  out_db : DB;
  out_checkups : option (list Checkup);
  out_toasts : list Toast
}.

(** [updateCheckupStatus(checkupId, status)], in the session of [user]. *)
Definition updateCheckupStatus (db : DB) (user : User) (checkupId : uuid)
    (status : StatusArg) : Outcome :=
  match update_checkups db (u_id user) checkupId (set_status (status_of status)) with
  | Ok db' =>
      mkOutcome db' (fetchCheckups db' (Some user))
        [toast_success ("Checkup " ++ status_name status ++ "!")]
  | Err e => mkOutcome db None [toast_error e "Error updating checkup"]
  end.

(** The form fields; [date_time] stands for the [date] and [time] inputs,
    as the instant they denote, and [patient_id] is the value of the
    patient select. *)
Record FormData := mkFormData {
  patient_id : UuidText;
  date_time : timestamptz;
  purpose : JS.jsstring;
  notes : JS.jsstring
}.

Definition checkupData (user : User) (formData : FormData) : CheckupData :=
  mkCheckupData (u_id user) (patient_id formData) (date_time formData)
                (purpose formData) (JS.or_null (notes formData)) upcoming.

(** [handleSubmit] of the form: it updates [editingCheckup] when there is
    one and inserts a new checkup otherwise. *)
Definition handleSubmit (db : DB) (new_id : uuid) (now : timestamptz)
    (user : option User) (editingCheckup : option Checkup) (formData : FormData) : Outcome :=
  match user with
  | None => mkOutcome db None []
  | Some u =>
      match editingCheckup with
      | Some e =>
          match update_checkup_data db (u_id u) (c_id e) (checkupData u formData) with
          | Ok db' =>
              mkOutcome db' (fetchCheckups db' user)
                [toast_success "Checkup updated successfully!"]
          | Err err => mkOutcome db None [toast_error err "Error saving checkup"]
          end
      | None =>
          match insert_checkup db (u_id u) new_id now (checkupData u formData) with
          | Ok db' =>
              mkOutcome db' (fetchCheckups db' user)
                [toast_success "Checkup scheduled successfully!"]
          | Err err => mkOutcome db None [toast_error err "Error saving checkup"]
          end
      end
  end.

(** What a click in the checkups list can call. *)
Inductive Action :=
| startEdit (checkup : Checkup)
| setStatus (checkupId : uuid) (status : StatusArg).

(** The buttons rendered for one checkup of the list:
    [checkup.status === 'upcoming' && (edit, complete, cancel)]. *)
Definition row_actions (checkup : Checkup) : list Action :=
  if Status_eqb (c_status checkup) upcoming then
    [startEdit checkup;
     setStatus (c_id checkup) to_completed;
     setStatus (c_id checkup) to_cancelled]
  else [].

(** The buttons of the whole list, [checkups.map(...)]. *)
Definition rendered_actions (checkups : list Checkup) : list Action :=
  flat_map row_actions checkups.

(** [fetchPatients]: the list given to [setPatients], when it is called:
    the embedded [patient] of each link of the doctor. *)
Definition fetchPatients (db : DB) (user : option User) : option (list (option User)) :=
  match user with
  | Some u =>
      match Rest.patients_of_doctor db (u_id u) (interpolate (Some (u_id u))) with
      | Ok data => Some data
      | Err _ => None
      end
  | None => None
  end.

End DoctorCheckups.

Module LogHealth.
Import Store UI.

(** The form fields; [date] is the value of the date input, as the day it
    denotes, and the other fields are the texts typed. *)
Record FormData := mkFormData {
  date : Schema.date;
  steps : JS.jsstring;
  water_ml : JS.jsstring;
  heart_rate : JS.jsstring;
  sleep_hours : JS.jsstring;
  notes : JS.jsstring
}.

(** The object [handleSubmit] gives to [.from('health_logs').insert(...)]. *)
Definition insert_row (user : Schema.User) (formData : FormData) : HealthLogInsert :=
  mkHealthLogInsert
    (Schema.u_id user)
    (date formData)
    (JS.or_else (JS.parseInt (steps formData)) JS.zero)
    (JS.or_else (JS.parseInt (water_ml formData)) JS.zero)
    (JS.or_else (JS.parseInt (heart_rate formData)) JS.zero)
    (JS.or_else (JS.parseFloat (sleep_hours formData)) JS.zero)
    (JS.or_null (notes formData)).

Record Outcome := mkOutcome {
  out_db : Schema.DB;
  out_toasts : list Toast
}.

(** [handleSubmit]; [new_id] and [now] are the defaults the store gives
    the new row. *)
Definition handleSubmit (db : Schema.DB) (new_id : Schema.uuid) (now : Schema.timestamptz)
    (user : option Schema.User) (formData : FormData) : Outcome :=
  match user with
  | None => mkOutcome db []
  | Some u =>
      match insert_health_log db (Schema.u_id u) new_id now (insert_row u formData) with
      | Ok db' => mkOutcome db' [toast_success "Health data logged successfully!"]
      | Err e => mkOutcome db [toast_error e "Error logging health data"]
      end
  end.

End LogHealth.

Module HealthHistory.
Import Schema Store.

(** [fetchHealthLogs]: the list given to [setHealthLogs], when it is called. *)
Definition fetchHealthLogs (db : DB) (user : option User) : option (list HealthLog) :=
  match user with
  | Some u =>
      match health_logs_of db (u_id u) (interpolate (Some (u_id u))) with
      | Ok data => Some data
      | Err _ => None
      end
  | None => None
  end.

End HealthHistory.

Module DoctorDashboard.
Import Schema Store.

(** [fetchPatientHealthLogs(patientId)], in the session of [user]: the
    list given to [setPatientHealthLogs], when it is called. *)
Definition fetchPatientHealthLogs (db : DB) (user : User) (patientId : uuid)
    : option (list HealthLog) :=
  match health_logs_of db (u_id user) (is_uuid patientId) with
  | Ok data => Some (limit 7 data)
  | Err _ => None
  end.

(** [fetchPatients]: the lists given to [setPatients] and, when the list
    is not empty, the value given to [setSelectedPatient]. *)
Definition fetchPatients (db : DB) (user : option User)
    : option (list (option User) * option (option User)) :=
  match user with
  | Some u =>
      match Rest.patients_of_doctor db (u_id u) (interpolate (Some (u_id u))) with
      | Ok patientList =>
          Some (patientList,
                match patientList with
                | first :: _ => Some first
                | [] => None
                end)
      | Err _ => None
      end
  | None => None
  end.

(** [fetchUpcomingCheckups]: the list given to [setUpcomingCheckups], when
    it is called. *)
Definition fetchUpcomingCheckups (db : DB) (user : option User) : option (list Checkup) :=
  match user with
  | Some u =>
      match Rest.upcoming_checkups c_doctor_id db (u_id u) (interpolate (Some (u_id u))) with
      | Ok data => Some data
      | Err _ => None
      end
  | None => None
  end.

Record Metrics := mkMetrics {
  steps : JS.Number;
  water : JS.Number;
  heartRate : JS.Number;
  sleep : JS.Number
}.

(** [getPatientMetrics], on the list [patientHealthLogs] of the page. *)
Definition getPatientMetrics (patientHealthLogs : list HealthLog) : Metrics :=
  match patientHealthLogs with
  | [] => mkMetrics JS.zero JS.zero JS.zero JS.zero
  | latest :: _ =>
      mkMetrics (h_steps latest) (h_water_ml latest) (h_heart_rate latest)
                (h_sleep_hours latest)
  end.

Inductive AlertType := warning | info.

Record Alert := mkAlert {
  alert_type : AlertType;
  message : string
}.

(** [getHealthAlerts], on the list [patientHealthLogs] of the page. *)
Definition getHealthAlerts (patientHealthLogs : list HealthLog) : list Alert :=
  match patientHealthLogs with
  | [] => []
  | latest :: _ =>
      (if JS.gt (h_heart_rate latest) (JS.int 100)
       then [mkAlert warning "High heart rate detected"] else [])
      ++ (if JS.lt (h_sleep_hours latest) (JS.int 6)
          then [mkAlert warning "Insufficient sleep"] else [])
      ++ (if JS.lt (h_water_ml latest) (JS.int 1500)
          then [mkAlert info "Low water intake"] else [])
      ++ (if JS.lt (h_steps latest) (JS.int 5000)
          then [mkAlert info "Low activity level"] else [])
  end.

End DoctorDashboard.

Module PatientDashboard.
Import Schema Store.

(** [fetchHealthLogs]: the list given to [setHealthLogs], when it is called. *)
Definition fetchHealthLogs (db : DB) (user : option User) : option (list HealthLog) :=
  match user with
  | Some u =>
      match health_logs_of db (u_id u) (interpolate (Some (u_id u))) with
      | Ok data => Some (limit 7 data)
      | Err _ => None
      end
  | None => None
  end.

(** [fetchUpcomingCheckups]: the list given to [setUpcomingCheckups], when
    it is called. *)
Definition fetchUpcomingCheckups (db : DB) (user : option User) : option (list Checkup) :=
  match user with
  | Some u =>
      match Rest.upcoming_checkups c_patient_id db (u_id u) (interpolate (Some (u_id u))) with
      | Ok data => Some data
      | Err _ => None
      end
  | None => None
  end.

(** [getLatestMetrics], on the list [healthLogs] of the page. *)
Definition getLatestMetrics (healthLogs : list HealthLog) : DoctorDashboard.Metrics :=
  match healthLogs with
  | [] => DoctorDashboard.mkMetrics JS.zero JS.zero JS.zero JS.zero
  | latest :: _ =>
      DoctorDashboard.mkMetrics (h_steps latest) (h_water_ml latest)
                                (h_heart_rate latest) (h_sleep_hours latest)
  end.

End PatientDashboard.

(** ** Statements about the pages *)

Module Spec.
Import Schema Store.

(** No leading or trailing white space, and not empty. *)
Definition trimmed_text (t : text) : Prop := t <> [] /\ JS.trim t = t.

(** What sending [input] may do to the database: nothing, or append to
    [messages] one row whose text is [input] trimmed, which is not empty
    and is its own trimmed form. *)
Definition sent_trimmed (input : JS.jsstring) (before after : DB) : Prop :=
  after = before \/
  exists m, after = with_messages before (messages before ++ [m]) /\
            m_message m = JS.trim input /\ trimmed_text (m_message m).

(** [D] is a doctor linked to [P]. *)
Definition linked (db : DB) (D P : User) : Prop :=
  In D (users db) /\ u_role D = doctor /\
  exists l, In l (doctor_patient_links db) /\
            l_doctor_id l = u_id D /\ l_patient_id l = u_id P.

(** The text of a decimal numeral, from its digits. *)
Definition decimal_text (ds : list N) : JS.jsstring := map (fun d => 48 + d) ds.

(** [rest] does not continue a numeral with digits [ds] as [parseInt]
    reads it: it is empty, or its first code unit is no decimal digit and,
    after the single digit 0, neither [x] nor [X]. *)
Definition ends_numeral (ds : list N) (rest : JS.jsstring) : Prop :=
  match rest with
  | [] => True
  | c :: _ =>
      (forall d, JS.digit_value c = Some d -> 10 <= d) /\
      (ds = [0] -> c <> 120 /\ c <> 88)
  end.

End Spec.

(** ** The demo data of the migration *)

Module Demo.
Import Schema.

Definition doctor_id : uuid := 0x11111111111111111111111111111111.
Definition patient_id : uuid := 0x22222222222222222222222222222222.

Definition demo_doctor (now : timestamptz) : User :=
  mkUser doctor_id (JS.lit "doctor@gmail.com") (JS.lit "Dr. Sarah Johnson")
         doctor None now now.

Definition demo_patient (now : timestamptz) : User :=
  mkUser patient_id (JS.lit "patient@gmail.com") (JS.lit "John Smith")
         patient None now now.

(** The rows the migration inserts into an empty database on day [today]
    at instant [now]; the generated ids are [0xA1], [0xB1] ... *)
Definition demo_db (today : date) (now : timestamptz) : DB :=
  mkDB
    [demo_doctor now; demo_patient now]
    [mkHealthLog 0xB1 patient_id (today - 1)%Z (JS.Finite 8500 0) (JS.Finite 2000 0)
                 (JS.Finite 72 0) (JS.Finite 75 (-1)) None now;
     mkHealthLog 0xB2 patient_id (today - 2)%Z (JS.Finite 6200 0) (JS.Finite 1800 0)
                 (JS.Finite 68 0) (JS.Finite 80 (-1)) None now;
     mkHealthLog 0xB3 patient_id (today - 3)%Z (JS.Finite 9100 0) (JS.Finite 2200 0)
                 (JS.Finite 75 0) (JS.Finite 65 (-1)) None now]
    [mkLink 0xA1 doctor_id patient_id now]
    []
    [mkCheckup 0xC1 doctor_id patient_id ((today + 7) * 86400)%Z
               (JS.lit "Regular Health Checkup") upcoming None now].

(** The demo data as of day 20278 (2025-07-09) at 10:15:18 UTC, in seconds
    since the epoch. *)
Definition db : DB := demo_db 20278 1752056118.
Definition dr : User := demo_doctor 1752056118.
Definition pt : User := demo_patient 1752056118.

End Demo.

(** * Properties *)

Import Schema RLS Store UI.

(** ** Primary keys and policy expressions *)

Lemma pkey_injective {A} (key : A -> N) (rows : list A) (a b : A) :
  List.NoDup (map key rows) -> In a rows -> In b rows -> key a = key b -> a = b.
Proof.
  induction rows as [|r rows IH]; simpl; [tauto|].
  intros Hnd Ha Hb Hk. apply List.NoDup_cons_iff in Hnd as [Hr Hnd].
  assert (Hfresh : forall x, In x rows -> key x <> key r).
  { intros x Hx Hxr. apply Hr. rewrite <- Hxr. apply in_map. exact Hx. }
  destruct Ha as [->|Ha], Hb as [->|Hb]; auto.
  - exfalso. apply (Hfresh b Hb). congruence.
  - exfalso. apply (Hfresh a Ha). congruence.
Qed.

Lemma Role_eqb_eq (a b : Role) : Role_eqb a b = true <-> a = b.
Proof. destruct a, b; simpl; split; congruence. Qed.

Lemma Status_eqb_eq (a b : Status) : Status_eqb a b = true <-> a = b.
Proof. destruct a, b; simpl; split; congruence. Qed.

Lemma access_Allow (b : bool) : access b = Allow <-> b = true.
Proof. destruct b; simpl; split; congruence. Qed.

Lemma access_Deny (b : bool) : access b = Deny <-> b = false.
Proof. destruct b; simpl; split; congruence. Qed.

(** Evaluate the policy list of a table down to its expressions. *)
Ltac rls_eval :=
  unfold passes_using, passes_check, check_qual, using_qual, applies; simpl.

(** A session selects from [users] exactly its own profile rows. *)
Lemma select_users_In (db : DB) (uid : uuid) (u : User) :
  In u (select_users db uid) <-> In u (users db) /\ u_id u = uid.
Proof.
  unfold select_users. rewrite filter_In. rls_eval.
  rewrite orb_false_r, N.eqb_eq. intuition congruence.
Qed.

(** A session selects from [doctor_patient_links] the links it is part of. *)
Lemma select_links_In (db : DB) (uid : uuid) (l : DoctorPatientLink) :
  In l (select_links db uid) <->
  In l (doctor_patient_links db) /\ (l_doctor_id l = uid \/ l_patient_id l = uid).
Proof.
  unfold select_links. rewrite filter_In. rls_eval.
  rewrite orb_false_r, orb_true_iff, !N.eqb_eq. tauto.
Qed.

(** The select policies of [health_logs], read off their sub-selects: the
    restriction of the sub-selects to the rows the session may see does not
    change the outcome. *)
Lemma health_logs_select_spec (db : DB) (uid : uuid) (h : HealthLog) :
  passes_using health_logs_policies SELECT db uid h = true <->
  uid = h_user_id h \/
  exists dpl u, In dpl (doctor_patient_links db) /\ In u (users db) /\
    u_id u = l_doctor_id dpl /\ l_patient_id dpl = h_user_id h /\
    l_doctor_id dpl = uid /\ u_role u = doctor.
Proof.
  rls_eval. rewrite orb_false_r, orb_true_iff, N.eqb_eq.
  apply or_iff_compat_l. rewrite existsb_exists. split.
  - intros (dpl & Hdpl & Hex). apply existsb_exists in Hex as (u & Hu & Hq).
    apply select_links_In in Hdpl as [Hdpl _]. apply select_users_In in Hu as [Hu _].
    rewrite !andb_true_iff, !N.eqb_eq, Role_eqb_eq in Hq. exists dpl, u. tauto.
  - intros (dpl & u & Hdpl & Hu & H1 & H2 & H3 & H4). exists dpl. split.
    + apply select_links_In. auto.
    + apply existsb_exists. exists u. split.
      * apply select_users_In. split; [exact Hu | congruence].
      * rewrite !andb_true_iff, !N.eqb_eq, Role_eqb_eq. tauto.
Qed.

(** The policy of [checkups], for every command and for both the rows it
    filters and the rows it checks. *)
Lemma checkups_policy_spec (db : DB) (uid : uuid) (k : Checkup) :
  using_qual checkups_manage db uid k = true <->
  c_doctor_id k = uid \/
  (c_patient_id k = uid /\
   exists u, In u (users db) /\ u_id u = uid /\ u_role u = patient).
Proof.
  rls_eval.
  rewrite orb_true_iff, andb_true_iff, !N.eqb_eq, existsb_exists.
  apply or_iff_compat_l, and_iff_compat_l. split.
  - intros (u & Hu & Hq). apply select_users_In in Hu as [Hu Hid].
    rewrite andb_true_iff, Role_eqb_eq in Hq. exists u. tauto.
  - intros (u & Hu & Hid & Hr). exists u. split.
    + apply select_users_In. tauto.
    + rewrite andb_true_iff, N.eqb_eq, Role_eqb_eq. tauto.
Qed.

Lemma checkups_using_any (c : Command) (db : DB) (uid : uuid) (k : Checkup) :
  passes_using checkups_policies c db uid k = using_qual checkups_manage db uid k.
Proof. rls_eval. apply orb_false_r. Qed.

Lemma checkups_check_any (c : Command) (db : DB) (uid : uuid) (k : Checkup) :
  passes_check checkups_policies c db uid k = using_qual checkups_manage db uid k.
Proof. rls_eval. apply orb_false_r. Qed.

Lemma messages_select_spec (db : DB) (uid : uuid) (m : Message) :
  passes_using messages_policies SELECT db uid m = true <->
  m_sender_id m = uid \/ m_receiver_id m = uid.
Proof.
  rls_eval. rewrite orb_false_r, orb_true_iff, !N.eqb_eq. tauto.
Qed.

Lemma messages_insert_spec (db : DB) (uid : uuid) (m : Message) :
  passes_check messages_policies INSERT db uid m = true <-> m_sender_id m = uid.
Proof.
  rls_eval. rewrite orb_false_r. apply N.eqb_eq.
Qed.

(** ** Access decisions *)

(** C1 (pairing gate).  For a doctor D and a patient P of the [users]
    table and a health log L with [L.user_id = P.id], reading L in D's
    session is allowed if and only if [doctor_patient_links] holds a link
    with [doctor_id = D.id] and [patient_id = P.id]; with no such link the
    decision is Deny. *)
Theorem pairing_gate (db : DB) (D P : User) (L : HealthLog) :
  users_pkey db ->
  In D (users db) -> u_role D = doctor ->
  In P (users db) -> u_role P = patient ->
  h_user_id L = u_id P ->
  let linked := exists l, In l (doctor_patient_links db) /\
                          l_doctor_id l = u_id D /\ l_patient_id l = u_id P in
  (read_health_log db (u_id D) L = Allow <-> linked) /\
  (~ linked -> read_health_log db (u_id D) L = Deny).
Proof.
  intros Hpk HD HrD HP HrP HL linked.
  assert (Hne : u_id D <> u_id P).
  { intros Heq. apply (pkey_injective u_id _ _ _ Hpk HD HP) in Heq. congruence. }
  assert (Hiff : read_health_log db (u_id D) L = Allow <-> linked).
  { unfold read_health_log. rewrite access_Allow, health_logs_select_spec, HL.
    subst linked. split.
    - intros [Hown | (dpl & u & Hdpl & _ & _ & Hp & Hd & _)]; [congruence|].
      exists dpl. auto.
    - intros (l & Hl & Hd & Hp). right. exists l, D. auto 10. }
  split; [exact Hiff|].
  intros Hno. destruct (read_health_log db (u_id D) L) eqn:E; [|reflexivity].
  exfalso. apply Hno, Hiff. reflexivity.
Qed.

Lemma pairing_gate_witness :
  let L := mkHealthLog 0xB1 Demo.patient_id 20277 JS.zero JS.zero JS.zero JS.zero None 0 in
  read_health_log Demo.db (u_id Demo.dr) L = Allow <->
  exists l, In l (doctor_patient_links Demo.db) /\
            l_doctor_id l = u_id Demo.dr /\ l_patient_id l = u_id Demo.pt.
Proof.
  intros L.
  refine (proj1 (pairing_gate Demo.db Demo.dr Demo.pt L _ _ _ _ _ _)).
  - unfold users_pkey. simpl. repeat constructor; simpl; intuition discriminate.
  - simpl. auto.
  - reflexivity.
  - simpl. auto.
  - reflexivity.
  - reflexivity.
Defined.

(** C2 (no sender forgery).  In the session of a principal A, creating a
    message is allowed exactly when the new row's [sender_id] is A's id;
    with another [sender_id] the decision is Deny and the insert is
    rejected with [insufficient_privilege]. *)
Theorem no_sender_forgery (db : DB) (A : uuid) :
  (forall m, create_message db A m = Allow <-> m_sender_id m = A) /\
  (forall m, m_sender_id m <> A -> create_message db A m = Deny) /\
  (forall new_id now sender receiver message,
     sender <> A ->
     insert_message db A new_id now (mkMessageInsert sender (is_uuid receiver) message)
     = Err insufficient_privilege).
Proof.
  split; [|split].
  - intros m. unfold create_message. rewrite access_Allow. apply messages_insert_spec.
  - intros m Hne. unfold create_message. apply access_Deny.
    destruct (passes_check messages_policies INSERT db A m) eqn:E; [|reflexivity].
    apply messages_insert_spec in E. contradiction.
  - intros new_id now sender receiver message Hne.
    assert (E : passes_check messages_policies INSERT db A
                  (message_row new_id now sender receiver message) = false).
    { destruct (passes_check _ _ _ _ _) eqn:E; [|reflexivity].
      apply messages_insert_spec in E. simpl in E. contradiction. }
    unfold insert_message. cbn [uuid_in mi_receiver_id mi_sender_id mi_message].
    rewrite E. reflexivity.
Qed.

Lemma no_sender_forgery_witness :
  insert_message Demo.db Demo.patient_id 0xD1 0
    (mkMessageInsert Demo.doctor_id (is_uuid Demo.patient_id) (JS.lit "Hello"))
  = Err insufficient_privilege.
Proof.
  apply (proj2 (proj2 (no_sender_forgery Demo.db Demo.patient_id))).
  vm_compute. discriminate.
Defined.

(** C3 (message symmetry).  A message is readable in the session of its
    sender and in the session of its receiver, and in no session of a third
    principal. *)
Theorem message_symmetry (db : DB) (M : Message) :
  read_message db (m_sender_id M) M = Allow /\
  read_message db (m_receiver_id M) M = Allow /\
  (forall X, X <> m_sender_id M -> X <> m_receiver_id M ->
             read_message db X M = Deny).
Proof.
  unfold read_message. repeat split.
  - apply access_Allow, messages_select_spec. auto.
  - apply access_Allow, messages_select_spec. auto.
  - intros X Hs Hr. apply access_Deny.
    destruct (passes_using messages_policies SELECT db X M) eqn:E; [|reflexivity].
    apply messages_select_spec in E. destruct E; congruence.
Qed.

Lemma message_symmetry_witness :
  read_message Demo.db 0x33 (mkMessage 0xD1 Demo.patient_id Demo.doctor_id (JS.lit "Hello") 0)
  = Deny.
Proof.
  apply (proj2 (proj2 (message_symmetry Demo.db
           (mkMessage 0xD1 Demo.patient_id Demo.doctor_id (JS.lit "Hello") 0)))).
  - vm_compute. discriminate.
  - vm_compute. discriminate.
Defined.

(** C5 (checkup access).  For a principal A of the [users] table and a
    checkup C, every command (select, insert, update, delete) is allowed on
    C, both as an existing row and as a row written, exactly when
    [A.id = C.doctor_id], or [A.id = C.patient_id] and A's role is patient;
    otherwise it is denied. *)
Theorem checkup_access (db : DB) (A : User) (C : Checkup) (cmd : Command) :
  users_pkey db -> In A (users db) ->
  let permitted := u_id A = c_doctor_id C \/
                   (u_id A = c_patient_id C /\ u_role A = patient) in
  (checkup_using cmd db (u_id A) C = Allow <-> permitted) /\
  (checkup_check cmd db (u_id A) C = Allow <-> permitted) /\
  (~ permitted -> checkup_using cmd db (u_id A) C = Deny /\
                  checkup_check cmd db (u_id A) C = Deny).
Proof.
  intros Hpk HA permitted.
  assert (Hq : using_qual checkups_manage db (u_id A) C = true <-> permitted).
  { rewrite checkups_policy_spec. subst permitted. split.
    - intros [Hd | (Hp & u & Hu & Hid & Hr)]; [left; congruence|].
      right. split; [congruence|].
      apply (pkey_injective u_id _ _ _ Hpk Hu HA) in Hid. congruence.
    - intros [Hd | (Hp & Hr)]; [left; congruence|].
      right. split; [congruence|]. exists A. auto. }
  unfold checkup_using, checkup_check.
  rewrite checkups_using_any, checkups_check_any, access_Allow.
  repeat split; try apply Hq.
  - destruct (using_qual checkups_manage db (u_id A) C); [|reflexivity].
    exfalso. apply H, Hq. reflexivity.
  - destruct (using_qual checkups_manage db (u_id A) C); [|reflexivity].
    exfalso. apply H, Hq. reflexivity.
Qed.

Lemma checkup_access_witness :
  checkup_using UPDATE Demo.db (u_id Demo.pt)
    (mkCheckup 0xC1 Demo.doctor_id Demo.patient_id 0 [] upcoming None 0) = Allow.
Proof.
  apply (proj1 (checkup_access Demo.db Demo.pt
           (mkCheckup 0xC1 Demo.doctor_id Demo.patient_id 0 [] upcoming None 0) UPDATE
           ltac:(unfold users_pkey; simpl; repeat constructor; simpl; intuition discriminate)
           ltac:(simpl; auto))).
  right. split; reflexivity.
Defined.

(** ** The built-ins on concrete inputs *)

Example trim_spaces : JS.trim (JS.lit "  a b  ") = JS.lit "a b".
Proof. reflexivity. Qed.

Example trim_blank : JS.trim [0x20; 0xA0; 0x9; 0x3000] = [].
Proof. reflexivity. Qed.

Example parseInt_empty : JS.parseInt (JS.lit "") = JS.NaN.
Proof. reflexivity. Qed.

Example parseInt_letters : JS.parseInt (JS.lit "abc") = JS.NaN.
Proof. reflexivity. Qed.

Example parseInt_prefix : JS.parseInt (JS.lit " 12abc") = JS.Finite 12 0.
Proof. reflexivity. Qed.

Example parseInt_hex : JS.parseInt (JS.lit "-0x1F") = JS.Finite (-31) 0.
Proof. reflexivity. Qed.

Example parseFloat_empty : JS.parseFloat (JS.lit "") = JS.NaN.
Proof. reflexivity. Qed.

Example parseFloat_dot : JS.parseFloat (JS.lit ".") = JS.NaN.
Proof. reflexivity. Qed.

Example parseFloat_decimal : JS.parseFloat (JS.lit "7.5") = JS.Finite 75 (-1).
Proof. reflexivity. Qed.

Example parseFloat_exponent : JS.parseFloat (JS.lit "-.5e-3x") = JS.Finite (-5) (-4).
Proof. reflexivity. Qed.

Example or_else_zero : JS.or_else (JS.parseInt (JS.lit "0")) JS.zero = JS.zero.
Proof. reflexivity. Qed.

(** The patient's chat page, before the doctor is loaded, sends the text
    [undefined] in its filter: the store rejects it and the list on the
    page is not set. *)
Example Chat_fetch_without_doctor :
  Chat.fetchMessages Demo.db None (Some Demo.pt) = None.
Proof. reflexivity. Qed.

(** ** Trimming *)

Lemma trimStart_head (s : JS.jsstring) :
  match JS.trimStart s with
  | [] => True
  | c :: _ => JS.isWhiteSpace c = false
  end.
Proof.
  induction s as [|c r IH]; simpl; [exact I|].
  destruct (JS.isWhiteSpace c) eqn:E; [exact IH | exact E].
Qed.

Lemma trimStart_fixed (c : N) (r : JS.jsstring) :
  JS.isWhiteSpace c = false -> JS.trimStart (c :: r) = c :: r.
Proof. intros E. simpl. rewrite E. reflexivity. Qed.

(** [trimEnd] keeps a first code unit that is not white space. *)
Lemma trimEnd_head (c : N) (r : JS.jsstring) :
  JS.isWhiteSpace c = false -> exists r', JS.trimEnd (c :: r) = c :: r'.
Proof.
  intros E. simpl. destruct (JS.trimEnd r) as [|x r'].
  - rewrite E. eauto.
  - eauto.
Qed.

Lemma trimEnd_idempotent (s : JS.jsstring) : JS.trimEnd (JS.trimEnd s) = JS.trimEnd s.
Proof.
  induction s as [|c r IH]; [reflexivity|]. simpl.
  destruct (JS.trimEnd r) as [|x r'] eqn:E.
  - destruct (JS.isWhiteSpace c) eqn:Ec; simpl; [reflexivity|]. rewrite Ec. reflexivity.
  - change (JS.trimEnd (c :: x :: r')) with
      (match JS.trimEnd (x :: r') with
       | [] => if JS.isWhiteSpace c then [] else [c]
       | y :: r'' => c :: y :: r''
       end).
    rewrite IH. reflexivity.
Qed.

(** [trimEnd] removes from the end what [trimStart] removes from the start. *)
Lemma trimEnd_snoc (s : JS.jsstring) (c : N) :
  JS.trimEnd (s ++ [c]) = if JS.isWhiteSpace c then JS.trimEnd s else s ++ [c].
Proof.
  induction s as [|x r IH]; simpl.
  - destruct (JS.isWhiteSpace c); reflexivity.
  - rewrite IH. destruct (JS.isWhiteSpace c); [reflexivity|].
    destruct r; reflexivity.
Qed.

Lemma trimEnd_rev (s : JS.jsstring) : JS.trimEnd s = rev (JS.trimStart (rev s)).
Proof.
  induction s as [|c s IH] using rev_ind; [reflexivity|].
  rewrite trimEnd_snoc, rev_unit. simpl.
  destruct (JS.isWhiteSpace c); [exact IH|].
  simpl. rewrite rev_involutive. reflexivity.
Qed.

Lemma trim_idempotent (s : JS.jsstring) : JS.trim (JS.trim s) = JS.trim s.
Proof.
  unfold JS.trim. pose proof (trimStart_head s) as Hh.
  destruct (JS.trimStart s) as [|c r]; [reflexivity|].
  destruct (trimEnd_head c r Hh) as [r' Hr]. rewrite Hr.
  rewrite (trimStart_fixed c r' Hh), <- Hr. apply trimEnd_idempotent.
Qed.

Lemma truthy_string_nonempty (s : JS.jsstring) : JS.truthy_string s = true <-> s <> [].
Proof. destruct s; simpl; split; congruence. Qed.

(** ** Sending messages *)

Lemma insert_message_appends (db db' : DB) (uid new_id : uuid) (now : timestamptz)
    (v : MessageInsert) :
  insert_message db uid new_id now v = Ok db' ->
  exists m, db' = with_messages db (messages db ++ [m]) /\
            m_sender_id m = mi_sender_id v /\
            mi_receiver_id v = is_uuid (m_receiver_id m) /\
            m_message m = mi_message v.
Proof.
  unfold insert_message. destruct (mi_receiver_id v) as [receiver|]; simpl; [|discriminate].
  destruct (negb _); [discriminate|]. destruct (negb _); [discriminate|].
  intros [= <-]. eexists. repeat split.
Qed.

Lemma DoctorChat_sent_trimmed db new_id now patientId user (st : DoctorChat.State) :
  Spec.sent_trimmed (DoctorChat.newMessage st) db
    (DoctorChat.out_db (DoctorChat.sendMessage db new_id now patientId user st)).
Proof.
  unfold DoctorChat.sendMessage.
  destruct (JS.truthy_string (JS.trim (DoctorChat.newMessage st))) eqn:Ht; simpl;
    [|left; reflexivity].
  destruct patientId as [pid|]; [|left; reflexivity].
  destruct user as [u|]; [|left; reflexivity].
  destruct (DoctorChat.sending st); [left; reflexivity|].
  destruct (insert_message _ _ _ _ _) as [db'|e] eqn:Ei; simpl; [|left; reflexivity].
  apply insert_message_appends in Ei as (m & -> & _ & _ & Hm). simpl in Hm.
  right. exists m. repeat split; auto.
  - rewrite Hm. apply truthy_string_nonempty, Ht.
  - rewrite Hm. apply trim_idempotent.
Qed.

Lemma Chat_sent_trimmed db new_id now user (st : Chat.State) :
  Spec.sent_trimmed (Chat.newMessage st) db
    (Chat.out_db (Chat.sendMessage db new_id now user st)).
Proof.
  unfold Chat.sendMessage.
  destruct (JS.truthy_string (JS.trim (Chat.newMessage st))) eqn:Ht; simpl;
    [|left; reflexivity].
  destruct (Chat.doctor st) as [d|]; [|left; reflexivity].
  destruct user as [u|]; [|left; reflexivity].
  destruct (Chat.sending st); [left; reflexivity|].
  destruct (insert_message _ _ _ _ _) as [db'|e] eqn:Ei; simpl; [|left; reflexivity].
  apply insert_message_appends in Ei as (m & -> & _ & _ & Hm). simpl in Hm.
  right. exists m. repeat split; auto.
  - rewrite Hm. apply truthy_string_nonempty, Ht.
  - rewrite Hm. apply trim_idempotent.
Qed.

Lemma sent_trimmed_invariant (input : JS.jsstring) (before after : DB) :
  Spec.sent_trimmed input before after ->
  (forall m, In m (messages before) -> Spec.trimmed_text (m_message m)) ->
  forall m, In m (messages after) -> Spec.trimmed_text (m_message m).
Proof.
  intros [-> | (m0 & -> & _ & Hm0)] Hinv m; [apply Hinv|].
  simpl. rewrite in_app_iff. simpl. intros [Hm | [<- | []]]; auto.
Qed.

Example DoctorChat_sends_trimmed :
  messages (DoctorChat.out_db
              (DoctorChat.sendMessage Demo.db 0xD1 5 (Some (is_uuid Demo.patient_id))
                 (Some Demo.dr)
                 (DoctorChat.mkState [] (JS.lit "  How are you? ") (Some Demo.pt) false false)))
  = [mkMessage 0xD1 Demo.doctor_id Demo.patient_id (JS.lit "How are you?") 5].
Proof. reflexivity. Qed.

Example Chat_sends_trimmed :
  messages (Chat.out_db
              (Chat.sendMessage Demo.db 0xD2 6 (Some Demo.pt)
                 (Chat.mkState [] (JS.lit " Hello ") (Some Demo.dr) false false)))
  = [mkMessage 0xD2 Demo.patient_id Demo.doctor_id (JS.lit "Hello") 6].
Proof. reflexivity. Qed.

(** C10 (stored text is trimmed).  Whatever the state of either chat page,
    [sendMessage] leaves the database as it was or appends one message row,
    and the text of that row is the input with leading and trailing white
    space removed: it is not empty and it equals its own trimmed form. *)
Theorem stored_messages_trimmed (db : DB) (new_id : uuid) (now : timestamptz)
    (patientId : option UuidText) (user : option User)
    (st : DoctorChat.State) (st' : Chat.State) :
  Spec.sent_trimmed (DoctorChat.newMessage st) db
    (DoctorChat.out_db (DoctorChat.sendMessage db new_id now patientId user st)) /\
  Spec.sent_trimmed (Chat.newMessage st') db
    (Chat.out_db (Chat.sendMessage db new_id now user st')).
Proof. split; [apply DoctorChat_sent_trimmed | apply Chat_sent_trimmed]. Qed.

(** C6 as stated fails: sending a text of three spaces from the doctor's
    chat page raises no error toast (and changes nothing). *)
Lemma blank_message_raises_no_error :
  let st := DoctorChat.mkState [] (JS.lit "   ") (Some Demo.pt) false false in
  let out := DoctorChat.sendMessage Demo.db 0xD1 0
               (Some (is_uuid Demo.patient_id)) (Some Demo.dr) st in
  JS.trim (DoctorChat.newMessage st) = [] /\
  DoctorChat.out_db out = Demo.db /\
  ~ (exists t, In t (DoctorChat.out_toasts out) /\ is_error t = true).
Proof.
  split; [reflexivity|]. split; [reflexivity|].
  intros (t & Ht & _). exact Ht.
Qed.

(** C6, amended.  When the text is empty after trimming, [sendMessage] of
    either chat page returns at its guard: no insert is issued, so no
    message row is created, the page state is unchanged, and no toast is
    raised. *)
Theorem blank_message_ignored (db : DB) (new_id : uuid) (now : timestamptz)
    (patientId : option UuidText) (user : option User)
    (st : DoctorChat.State) (st' : Chat.State) :
  (JS.trim (DoctorChat.newMessage st) = [] ->
   DoctorChat.sendMessage db new_id now patientId user st
   = DoctorChat.mkOutcome db st []) /\
  (JS.trim (Chat.newMessage st') = [] ->
   Chat.sendMessage db new_id now user st' = Chat.mkOutcome db st' []).
Proof.
  split; intros H.
  - unfold DoctorChat.sendMessage. rewrite H. reflexivity.
  - unfold Chat.sendMessage. rewrite H. reflexivity.
Qed.

Lemma blank_message_ignored_witness :
  let st := DoctorChat.mkState [] [0x20; 0xA0; 0x9] (Some Demo.pt) false false in
  let st' := Chat.mkState [] (JS.lit "  ") (Some Demo.dr) false false in
  JS.trim (DoctorChat.newMessage st) = [] /\
  JS.trim (Chat.newMessage st') = [] /\
  DoctorChat.sendMessage Demo.db 0xD1 0 (Some (is_uuid Demo.patient_id)) (Some Demo.dr) st
  = DoctorChat.mkOutcome Demo.db st [] /\
  Chat.sendMessage Demo.db 0xD1 0 (Some Demo.pt) st' = Chat.mkOutcome Demo.db st' [].
Proof.
  intros st st'.
  pose proof (blank_message_ignored Demo.db 0xD1 0 (Some (is_uuid Demo.patient_id))
                (Some Demo.dr) st st') as [H1 _].
  pose proof (blank_message_ignored Demo.db 0xD1 0 (Some (is_uuid Demo.patient_id))
                (Some Demo.pt) st st') as [_ H2].
  split; [reflexivity|]. split; [reflexivity|].
  split; [apply H1; reflexivity | apply H2; reflexivity].
Defined.

(** ** Logging health data *)

Lemma or_else_NaN (n : JS.Number) : n = JS.NaN -> JS.or_else n JS.zero = JS.zero.
Proof. intros ->. reflexivity. Qed.

Lemma or_else_zero_not_NaN (n : JS.Number) : JS.or_else n JS.zero <> JS.NaN.
Proof. destruct n as [| |m e]; simpl; try discriminate. unfold JS.or_else; simpl.
  destruct (negb (m =? 0)%Z); discriminate.
Qed.

Lemma user_exists_In (db : DB) (u : User) : In u (users db) -> user_exists db (u_id u) = true.
Proof.
  intros Hu. unfold user_exists. apply existsb_exists. exists u.
  split; [exact Hu | apply N.eqb_refl].
Qed.

(** A signed-in user's own health log passes the insert check. *)
Lemma insert_own_health_log (db : DB) (new_id : uuid) (now : timestamptz) (user : User)
    (v : HealthLogInsert) :
  In user (users db) -> hi_user_id v = u_id user ->
  insert_health_log db (u_id user) new_id now v
  = Ok (with_health_logs db (health_logs db ++ [health_log_row new_id now v])).
Proof.
  intros Hu Hid. unfold insert_health_log.
  assert (Hc : passes_check health_logs_policies INSERT db (u_id user)
                 (health_log_row new_id now v) = true).
  { rls_eval. rewrite Hid, N.eqb_refl. reflexivity. }
  rewrite Hc. simpl. rewrite Hid, (user_exists_In db user Hu). reflexivity.
Qed.

(** What [handleSubmit] gives to the insert: 0 for a metric whose field
    is empty or unparsable, and never NaN. *)
Lemma insert_row_zero_for_unparsable (user : User) (formData : LogHealth.FormData) :
  let sent := LogHealth.insert_row user formData in
  (LogHealth.steps formData = [] \/ JS.parseInt (LogHealth.steps formData) = JS.NaN ->
   hi_steps sent = JS.zero) /\
  (LogHealth.water_ml formData = [] \/ JS.parseInt (LogHealth.water_ml formData) = JS.NaN ->
   hi_water_ml sent = JS.zero) /\
  (LogHealth.heart_rate formData = [] \/
   JS.parseInt (LogHealth.heart_rate formData) = JS.NaN ->
   hi_heart_rate sent = JS.zero) /\
  (LogHealth.sleep_hours formData = [] \/
   JS.parseFloat (LogHealth.sleep_hours formData) = JS.NaN ->
   hi_sleep_hours sent = JS.zero) /\
  hi_steps sent <> JS.NaN /\ hi_water_ml sent <> JS.NaN /\
  hi_heart_rate sent <> JS.NaN /\ hi_sleep_hours sent <> JS.NaN.
Proof.
  simpl.
  repeat split; try apply or_else_zero_not_NaN;
    intros [-> | H]; solve [reflexivity | apply or_else_NaN, H].
Qed.

(** C9 (unparsable metrics are stored as 0).  Whatever the metric fields
    hold, [handleSubmit] does not reject the submission itself: the row it
    gives to the insert holds the number 0 for every metric whose field is
    empty or for which [parseInt] ([parseFloat] for [sleep_hours]) yields
    NaN, and holds NaN for no metric.  When the signed-in user is a row of
    [users] and the numbers submitted fit the columns (each metric field
    is empty or unparsable, or holds a number its column takes unchanged),
    the store accepts the insert: one row is appended to [health_logs],
    and in it those metrics are 0 and no metric is NaN. *)
Theorem unparsable_metric_stored_as_zero (db : DB) (new_id : uuid) (now : timestamptz)
    (user : User) (formData : LogHealth.FormData) :
  let sent := LogHealth.insert_row user formData in
  ((LogHealth.steps formData = [] \/ JS.parseInt (LogHealth.steps formData) = JS.NaN ->
    hi_steps sent = JS.zero) /\
   (LogHealth.water_ml formData = [] \/ JS.parseInt (LogHealth.water_ml formData) = JS.NaN ->
    hi_water_ml sent = JS.zero) /\
   (LogHealth.heart_rate formData = [] \/
    JS.parseInt (LogHealth.heart_rate formData) = JS.NaN ->
    hi_heart_rate sent = JS.zero) /\
   (LogHealth.sleep_hours formData = [] \/
    JS.parseFloat (LogHealth.sleep_hours formData) = JS.NaN ->
    hi_sleep_hours sent = JS.zero) /\
   hi_steps sent <> JS.NaN /\ hi_water_ml sent <> JS.NaN /\
   hi_heart_rate sent <> JS.NaN /\ hi_sleep_hours sent <> JS.NaN) /\
  (In user (users db) -> fits_columns sent = true ->
   exists row,
     LogHealth.out_db (LogHealth.handleSubmit db new_id now (Some user) formData)
     = with_health_logs db (health_logs db ++ [row]) /\
     h_user_id row = u_id user /\
     (LogHealth.steps formData = [] \/ JS.parseInt (LogHealth.steps formData) = JS.NaN ->
      h_steps row = JS.zero) /\
     (LogHealth.water_ml formData = [] \/
      JS.parseInt (LogHealth.water_ml formData) = JS.NaN ->
      h_water_ml row = JS.zero) /\
     (LogHealth.heart_rate formData = [] \/
      JS.parseInt (LogHealth.heart_rate formData) = JS.NaN ->
      h_heart_rate row = JS.zero) /\
     (LogHealth.sleep_hours formData = [] \/
      JS.parseFloat (LogHealth.sleep_hours formData) = JS.NaN ->
      h_sleep_hours row = JS.zero) /\
     h_steps row <> JS.NaN /\ h_water_ml row <> JS.NaN /\
     h_heart_rate row <> JS.NaN /\ h_sleep_hours row <> JS.NaN).
Proof.
  intros sent. split; [apply insert_row_zero_for_unparsable|].
  intros Hu _. subst sent.
  exists (health_log_row new_id now (LogHealth.insert_row user formData)).
  split.
  { unfold LogHealth.handleSubmit.
    rewrite (insert_own_health_log db new_id now user
               (LogHealth.insert_row user formData) Hu eq_refl).
    reflexivity. }
  split; [reflexivity|].
  apply insert_row_zero_for_unparsable.
Qed.

Lemma unparsable_metric_stored_as_zero_witness :
  let formData := LogHealth.mkFormData 20278 (JS.lit "") (JS.lit "abc") (JS.lit "72")
                    (JS.lit ".") (JS.lit "") in
  In Demo.pt (users Demo.db) /\
  fits_columns (LogHealth.insert_row Demo.pt formData) = true /\
  exists row,
    LogHealth.out_db (LogHealth.handleSubmit Demo.db 0xB4 0 (Some Demo.pt) formData)
    = with_health_logs Demo.db (health_logs Demo.db ++ [row]) /\
    h_steps row = JS.zero /\ h_water_ml row = JS.zero /\
    h_heart_rate row = JS.Finite 72 0 /\ h_sleep_hours row = JS.zero.
Proof.
  intros formData.
  assert (Hin : In Demo.pt (users Demo.db)) by (simpl; auto).
  assert (Hfit : fits_columns (LogHealth.insert_row Demo.pt formData) = true)
    by reflexivity.
  split; [exact Hin|]. split; [exact Hfit|].
  destruct (proj2 (unparsable_metric_stored_as_zero Demo.db 0xB4 0 Demo.pt formData) Hin Hfit)
    as (row & Hdb & _ & Hs & Hw & _ & Hsl & _).
  exists row. split; [exact Hdb|].
  split; [apply Hs; left; reflexivity|].
  split; [apply Hw; right; reflexivity|].
  split; [|apply Hsl; right; reflexivity].
  apply (f_equal health_logs) in Hdb. vm_compute in Hdb.
  injection Hdb as <-. reflexivity.
Defined.

(** ** Ordered selects *)

Section Ordering.
Context {A : Type} (key : A -> Z).

#[local] Instance ascending_by_total : Total (ascending_by key).
Proof. intros a b. unfold ascending_by. lia. Qed.

#[local] Instance ascending_by_trans : Transitive (ascending_by key).
Proof. intros a b c. unfold ascending_by. lia. Qed.

#[local] Instance descending_by_total : Total (descending_by key).
Proof. intros a b. unfold descending_by. lia. Qed.

#[local] Instance descending_by_trans : Transitive (descending_by key).
Proof. intros a b c. unfold descending_by. lia. Qed.

Lemma order_Permutation (ascending : bool) (rows : list A) :
  Permutation (order key ascending rows) rows.
Proof. destruct ascending; apply merge_sort_Permutation. Qed.

Lemma order_ascending (rows : list A) :
  StronglySorted (ascending_by key) (order key true rows).
Proof. apply StronglySorted_merge_sort; apply _. Qed.

Lemma order_descending (rows : list A) :
  StronglySorted (descending_by key) (order key false rows).
Proof. apply StronglySorted_merge_sort; apply _. Qed.

Lemma order_In (ascending : bool) (rows : list A) (x : A) :
  In x (order key ascending rows) <-> In x rows.
Proof.
  split; apply Permutation_in;
    [|apply Permutation_sym]; apply order_Permutation.
Qed.

End Ordering.

Lemma limit_sorted {A} (R : relation A) (n : nat) (rows : list A) :
  StronglySorted R rows -> StronglySorted R (limit n rows).
Proof.
  intros Hs. unfold limit. rewrite <- (take_drop n rows) in Hs.
  apply StronglySorted_app_1_l in Hs. exact Hs.
Qed.

Lemma limit_In {A} (n : nat) (rows : list A) (x : A) : In x (limit n rows) -> In x rows.
Proof.
  unfold limit. intros Hx. rewrite <- (take_drop n rows). apply in_or_app. auto.
Qed.

Lemma limit_length {A} (n : nat) (rows : list A) : (length (limit n rows) <= n)%nat.
Proof. unfold limit. rewrite length_take. lia. Qed.

(** A filter that implies the policy sees through the policy. *)
Lemma filter_visible {A} (f g : A -> bool) (rows : list A) :
  (forall x, In x rows -> f x = true -> g x = true) ->
  List.filter f (List.filter g rows) = List.filter f rows.
Proof.
  induction rows as [|x rows IH]; intros H; [reflexivity|]. simpl.
  destruct (g x) eqn:Eg; simpl.
  - rewrite IH by (intros; apply H; simpl; auto). reflexivity.
  - destruct (f x) eqn:Ef.
    + rewrite H in Eg by (simpl; auto). discriminate.
    + apply IH. intros; apply H; simpl; auto.
Qed.

Lemma filter_subset {A} (f g : A -> bool) (rows : list A) (x : A) :
  In x (List.filter f (List.filter g rows)) -> In x (List.filter f rows).
Proof. rewrite !filter_In. tauto. Qed.

(** ** Threads *)

Lemma thread_filter_spec (a b : uuid) (m : Message) :
  thread_filter a b m = true <->
  (m_sender_id m = a /\ m_receiver_id m = b) \/
  (m_sender_id m = b /\ m_receiver_id m = a).
Proof.
  unfold thread_filter. rewrite orb_true_iff, !andb_true_iff, !N.eqb_eq. tauto.
Qed.

(** In the session of [a], the thread of [a] and [b] is selected from all
    of [messages]: the select policy hides none of its rows. *)
Lemma messages_thread_own (db : DB) (a b : uuid) :
  messages_thread db a (is_uuid a) (is_uuid b)
  = Ok (order m_timestamp true (List.filter (thread_filter a b) (messages db))).
Proof.
  unfold messages_thread, select_messages; simpl. f_equal. f_equal.
  apply filter_visible. intros m _ Hm.
  apply messages_select_spec. apply thread_filter_spec in Hm. tauto.
Qed.

(** A thread on a table that also holds a message of a third principal. *)
Example thread_of_demo_pair :
  let m1 := mkMessage 0xD1 Demo.patient_id Demo.doctor_id (JS.lit "Hello") 30 in
  let m2 := mkMessage 0xD2 Demo.doctor_id Demo.patient_id (JS.lit "Hi") 20 in
  let m3 := mkMessage 0xD3 0x33 Demo.doctor_id (JS.lit "Other") 10 in
  let db := with_messages Demo.db [m1; m2; m3] in
  DoctorChat.fetchMessages db (Some (is_uuid Demo.patient_id)) (Some Demo.dr)
  = Some [m2; m1] /\
  Chat.fetchMessages db (Some Demo.dr) (Some Demo.pt) = Some [m2; m1].
Proof. split; reflexivity. Qed.

(** C7 (thread).  For principals a and b, the thread fetched in a's session
    by the doctor's chat page and by the patient's chat page is the same
    list; it holds exactly the rows of [messages] whose (sender, receiver)
    is (a, b) or (b, a), each as often as the table does, in ascending
    order of [timestamp]. *)
Theorem thread_exact_and_ordered (db : DB) (a b : User) :
  exists rows,
    DoctorChat.fetchMessages db (Some (is_uuid (u_id b))) (Some a) = Some rows /\
    Chat.fetchMessages db (Some b) (Some a) = Some rows /\
    Permutation rows (List.filter (thread_filter (u_id a) (u_id b)) (messages db)) /\
    (forall m, In m rows <->
       In m (messages db) /\
       ((m_sender_id m = u_id a /\ m_receiver_id m = u_id b) \/
        (m_sender_id m = u_id b /\ m_receiver_id m = u_id a))) /\
    StronglySorted (ascending_by m_timestamp) rows.
Proof.
  exists (order m_timestamp true
            (List.filter (thread_filter (u_id a) (u_id b)) (messages db))).
  split.
  { unfold DoctorChat.fetchMessages. rewrite messages_thread_own. reflexivity. }
  split.
  { unfold Chat.fetchMessages. cbn [interpolate option_map].
    rewrite messages_thread_own. reflexivity. }
  split; [apply order_Permutation|].
  split; [|apply order_ascending].
  intros m. rewrite order_In, filter_In, thread_filter_spec. reflexivity.
Qed.

(** ** Health-log history *)

(** In the patient's own session the history is selected from all of
    [health_logs]. *)
Lemma health_logs_of_own (db : DB) (P : uuid) :
  health_logs_of db P (is_uuid P)
  = Ok (order h_date false (List.filter (fun h => h_user_id h =? P) (health_logs db))).
Proof.
  unfold health_logs_of, select_health_logs; simpl. f_equal. f_equal.
  apply filter_visible. intros h _ Hh. apply N.eqb_eq in Hh.
  apply health_logs_select_spec. auto.
Qed.

(** In the session of a doctor linked to the patient, too. *)
Lemma health_logs_of_linked (db : DB) (D : User) (P : uuid) :
  In D (users db) -> u_role D = doctor ->
  (exists l, In l (doctor_patient_links db) /\ l_doctor_id l = u_id D /\ l_patient_id l = P) ->
  health_logs_of db (u_id D) (is_uuid P)
  = Ok (order h_date false (List.filter (fun h => h_user_id h =? P) (health_logs db))).
Proof.
  intros HD Hr (l & Hl & Hd & Hp).
  unfold health_logs_of, select_health_logs; simpl. f_equal. f_equal.
  apply filter_visible. intros h _ Hh. apply N.eqb_eq in Hh.
  apply health_logs_select_spec. right. exists l, D. repeat split; congruence.
Qed.

(** C8 (history and dashboard summary).  The history page of a patient P
    fetches exactly P's rows of [health_logs], in descending order of
    [date].  The doctor dashboard fetches for P at most 7 rows, in
    descending order of [date], all of them rows of P's history; for a
    doctor linked to P they are the 7 most recent rows (all rows when
    there are fewer): together with some older rows they make up P's rows
    in descending order of [date]. *)
Theorem history_descending_summary_seven (db : DB) (P : User) :
  exists history,
    HealthHistory.fetchHealthLogs db (Some P) = Some history /\
    Permutation history
      (List.filter (fun h => h_user_id h =? u_id P) (health_logs db)) /\
    StronglySorted (descending_by h_date) history /\
    forall D : User,
    exists summary,
      DoctorDashboard.fetchPatientHealthLogs db D (u_id P) = Some summary /\
      (length summary <= 7)%nat /\
      StronglySorted (descending_by h_date) summary /\
      (forall h, In h summary -> In h history) /\
      (In D (users db) -> u_role D = doctor ->
       (exists l, In l (doctor_patient_links db) /\
                  l_doctor_id l = u_id D /\ l_patient_id l = u_id P) ->
       exists older,
         Permutation (summary ++ older)
           (List.filter (fun h => h_user_id h =? u_id P) (health_logs db)) /\
         StronglySorted (descending_by h_date) (summary ++ older) /\
         length summary = Nat.min 7 (length history)).
Proof.
  exists (order h_date false
            (List.filter (fun h => h_user_id h =? u_id P) (health_logs db))).
  split.
  { unfold HealthHistory.fetchHealthLogs. cbn [interpolate].
    rewrite health_logs_of_own. reflexivity. }
  split; [apply order_Permutation|].
  split; [apply order_descending|].
  intros D. unfold DoctorDashboard.fetchPatientHealthLogs.
  set (visible := List.filter (fun h => h_user_id h =? u_id P)
                              (select_health_logs db (u_id D))).
  assert (E : health_logs_of db (u_id D) (is_uuid (u_id P))
              = Ok (order h_date false visible)) by reflexivity.
  rewrite E. exists (limit 7 (order h_date false visible)).
  split; [reflexivity|].
  split; [apply limit_length|].
  split; [apply limit_sorted, order_descending|].
  split.
  - intros h Hh. apply limit_In in Hh. apply order_In in Hh.
    apply filter_subset in Hh. apply order_In. exact Hh.
  - intros HD Hr Hl.
    rewrite (health_logs_of_linked db D (u_id P) HD Hr Hl) in E.
    assert (E' : order h_date false visible
                 = order h_date false
                     (List.filter (fun h => h_user_id h =? u_id P) (health_logs db)))
      by congruence.
    rewrite E'. exists (drop 7 (order h_date false
                 (List.filter (fun h => h_user_id h =? u_id P) (health_logs db)))).
    unfold limit. rewrite take_drop, length_take.
    split; [apply order_Permutation|]. split; [apply order_descending|]. lia.
Qed.

Lemma history_descending_summary_seven_witness :
  In Demo.dr (users Demo.db) /\ u_role Demo.dr = doctor /\
  (exists l, In l (doctor_patient_links Demo.db) /\
             l_doctor_id l = u_id Demo.dr /\ l_patient_id l = u_id Demo.pt) /\
  exists history summary,
    HealthHistory.fetchHealthLogs Demo.db (Some Demo.pt) = Some history /\
    DoctorDashboard.fetchPatientHealthLogs Demo.db Demo.dr (u_id Demo.pt) = Some summary /\
    length summary = Nat.min 7 (length history).
Proof.
  assert (HD : In Demo.dr (users Demo.db)) by (simpl; auto).
  assert (Hl : exists l, In l (doctor_patient_links Demo.db) /\
                         l_doctor_id l = u_id Demo.dr /\ l_patient_id l = u_id Demo.pt).
  { eexists. split; [left; reflexivity|]. split; reflexivity. }
  split; [exact HD|]. split; [reflexivity|]. split; [exact Hl|].
  destruct (history_descending_summary_seven Demo.db Demo.pt)
    as (history & Hh & _ & _ & Hsum).
  destruct (Hsum Demo.dr) as (summary & Hs & _ & _ & _ & Hrecent).
  exists history, summary. split; [exact Hh|]. split; [exact Hs|].
  destruct (Hrecent HD eq_refl Hl) as (older & _ & _ & Hlen). exact Hlen.
Defined.

(** ** Checkup status *)

(** A status button is rendered only for a checkup the list shows as
    upcoming, and it targets that checkup. *)
Lemma rendered_setStatus (view : list Checkup) (checkupId : uuid)
    (status : DoctorCheckups.StatusArg) :
  In (DoctorCheckups.setStatus checkupId status) (DoctorCheckups.rendered_actions view) ->
  exists c, In c view /\ c_id c = checkupId /\ c_status c = upcoming.
Proof.
  unfold DoctorCheckups.rendered_actions. rewrite in_flat_map.
  intros (c & Hc & Ha). exists c. split; [exact Hc|].
  unfold DoctorCheckups.row_actions in Ha.
  destruct (Status_eqb (c_status c) upcoming) eqn:E; [|destruct Ha].
  apply Status_eqb_eq in E.
  destruct Ha as [Ha | [Ha | [Ha | []]]]; [discriminate Ha | |];
    injection Ha as <- _; auto.
Qed.

Lemma fetchCheckups_In (db : DB) (user : User) (view : list Checkup) (c : Checkup) :
  DoctorCheckups.fetchCheckups db (Some user) = Some view ->
  In c view -> In c (checkups db).
Proof.
  unfold DoctorCheckups.fetchCheckups, checkups_of_doctor. cbn [interpolate uuid_in].
  intros Hv Hc.
  assert (Hview : view = order c_date true
                    (List.filter (fun k => c_doctor_id k =? u_id user)
                                 (select_checkups db (u_id user)))) by congruence.
  rewrite Hview in Hc. apply order_In in Hc.
  apply filter_In in Hc as [Hc _]. unfold select_checkups in Hc.
  apply filter_In in Hc as [Hc _]. exact Hc.
Qed.

(** [update_checkups] leaves a row with another id where and as it is. *)
Lemma update_checkups_other (db db' : DB) (uid id : uuid) (set : Checkup -> Checkup)
    (i : nat) (k : Checkup) :
  update_checkups db uid id set = Ok db' ->
  nth_error (checkups db) i = Some k -> c_id k <> id ->
  nth_error (checkups db') i = Some k.
Proof.
  unfold update_checkups.
  destruct (negb (forallb _ _)); [discriminate|].
  destruct (negb (forallb _ _)); [discriminate|].
  intros [= <-] Hk Hne. simpl.
  rewrite nth_error_map, Hk. simpl.
  apply N.eqb_neq in Hne. rewrite Hne. reflexivity.
Qed.

(** C4 as stated fails: [updateCheckupStatus] applied to a completed
    checkup changes its status to cancelled. *)
Lemma completed_checkup_recancelled :
  let k := mkCheckup 0xC1 Demo.doctor_id Demo.patient_id 0 (JS.lit "Annual Physical")
                     completed None 0 in
  let db := with_checkups Demo.db [k] in
  c_status k = completed /\
  checkups (DoctorCheckups.out_db
              (DoctorCheckups.updateCheckupStatus db Demo.dr (c_id k)
                 DoctorCheckups.to_cancelled))
  = [DoctorCheckups.set_status cancelled k].
Proof. split; reflexivity. Qed.

(** C4, amended.  The checkups page renders no status button for a
    checkup that is completed or cancelled.  When the list on the page is
    what [fetchCheckups] returns for the current database, a [setStatus]
    call made from a rendered button leaves every completed or cancelled
    checkup as it is. *)
Theorem rendered_setStatus_spares_terminal (db : DB) (user : User)
    (view : list Checkup) (checkupId : uuid) (status : DoctorCheckups.StatusArg) :
  (forall k, c_status k = completed \/ c_status k = cancelled ->
             DoctorCheckups.row_actions k = []) /\
  (checkups_pkey db ->
   DoctorCheckups.fetchCheckups db (Some user) = Some view ->
   In (DoctorCheckups.setStatus checkupId status) (DoctorCheckups.rendered_actions view) ->
   forall i k,
     nth_error (checkups db) i = Some k ->
     c_status k = completed \/ c_status k = cancelled ->
     nth_error (checkups (DoctorCheckups.out_db
                            (DoctorCheckups.updateCheckupStatus db user checkupId status))) i
     = Some k).
Proof.
  split.
  - intros k [Hk | Hk]; unfold DoctorCheckups.row_actions; rewrite Hk; reflexivity.
  - intros Hpk Hview Hact i k Hi Hterm.
    apply rendered_setStatus in Hact as (c & Hc & Hid & Hup).
    apply (fetchCheckups_In db user view c Hview) in Hc.
    assert (Hne : c_id k <> checkupId).
    { intros Heq. apply nth_error_In in Hi.
      assert (k = c) as -> by (apply (pkey_injective c_id _ _ _ Hpk Hi Hc); congruence).
      destruct Hterm; congruence. }
    unfold DoctorCheckups.updateCheckupStatus.
    destruct (update_checkups db (u_id user) checkupId _) as [db'|e] eqn:E; simpl.
    + apply (update_checkups_other _ _ _ _ _ _ _ E Hi Hne).
    + exact Hi.
Qed.

Lemma rendered_setStatus_spares_terminal_witness :
  let done := mkCheckup 0xC2 Demo.doctor_id Demo.patient_id 0 (JS.lit "Annual Physical")
                        completed None 0 in
  let next := mkCheckup 0xC1 Demo.doctor_id Demo.patient_id 7 (JS.lit "Follow-up")
                        upcoming None 0 in
  let db := with_checkups Demo.db [next; done] in
  checkups_pkey db /\
  DoctorCheckups.fetchCheckups db (Some Demo.dr) = Some [done; next] /\
  In (DoctorCheckups.setStatus 0xC1 DoctorCheckups.to_cancelled)
     (DoctorCheckups.rendered_actions [done; next]) /\
  nth_error (checkups (DoctorCheckups.out_db
                         (DoctorCheckups.updateCheckupStatus db Demo.dr 0xC1
                            DoctorCheckups.to_cancelled))) 1
  = Some done.
Proof.
  intros done next db.
  assert (Hpk : checkups_pkey db).
  { unfold checkups_pkey. simpl. repeat constructor; simpl; intuition discriminate. }
  assert (Hview : DoctorCheckups.fetchCheckups db (Some Demo.dr) = Some [done; next])
    by reflexivity.
  assert (Hact : In (DoctorCheckups.setStatus 0xC1 DoctorCheckups.to_cancelled)
                    (DoctorCheckups.rendered_actions [done; next]))
    by (simpl; auto).
  split; [exact Hpk|]. split; [exact Hview|]. split; [exact Hact|].
  apply (proj2 (rendered_setStatus_spares_terminal db Demo.dr [done; next] 0xC1
                  DoctorCheckups.to_cancelled) Hpk Hview Hact 1%nat done).
  - reflexivity.
  - left. reflexivity.
Defined.

(** The edit form is another path to the status column: it stays open
    while a status button is used, and submitting it then writes
    ['upcoming'] to the checkup it was opened for. *)
Example edit_form_reopens_completed :
  let c := mkCheckup 0xC1 Demo.doctor_id Demo.patient_id 7 (JS.lit "Follow-up")
                     upcoming None 0 in
  let db := with_checkups Demo.db [c] in
  let form := DoctorCheckups.mkFormData (is_uuid Demo.patient_id) 7 (JS.lit "Follow-up") [] in
  In (DoctorCheckups.startEdit c) (DoctorCheckups.rendered_actions [c]) /\
  In (DoctorCheckups.setStatus 0xC1 DoctorCheckups.to_completed)
     (DoctorCheckups.rendered_actions [c]) /\
  let db1 := DoctorCheckups.out_db
               (DoctorCheckups.updateCheckupStatus db Demo.dr 0xC1
                  DoctorCheckups.to_completed) in
  map c_status (checkups db1) = [completed] /\
  map c_status
    (checkups (DoctorCheckups.out_db
                 (DoctorCheckups.handleSubmit db1 0xC9 0 (Some Demo.dr) (Some c) form)))
  = [upcoming].
Proof. simpl. auto 6. Qed.

(** * Further properties of the pages *)

(** ** Profiles under the [users] policies *)

Lemma filter_none {A} (f : A -> bool) (rows : list A) :
  (forall x, In x rows -> f x = false) -> List.filter f rows = [].
Proof.
  induction rows as [|x rows IH]; intros H; [reflexivity|]. simpl.
  rewrite (H x) by (simpl; auto). apply IH. intros; apply H; simpl; auto.
Qed.

(** A primary key selects exactly one row. *)
Lemma pkey_filter_singleton {A} (key : A -> N) (rows : list A) (a : A) :
  List.NoDup (map key rows) -> In a rows ->
  List.filter (fun x => key x =? key a) rows = [a].
Proof.
  induction rows as [|r rows IH]; simpl; [tauto|].
  intros Hnd Ha. apply List.NoDup_cons_iff in Hnd as [Hr Hnd].
  destruct Ha as [-> | Ha].
  - rewrite N.eqb_refl. f_equal. apply filter_none. intros x Hx.
    apply N.eqb_neq. intros Heq. apply Hr. rewrite <- Heq. apply in_map, Hx.
  - assert (Hne : key r <> key a).
    { intros Heq. apply Hr. rewrite Heq. apply in_map, Ha. }
    apply N.eqb_neq in Hne. rewrite Hne. apply IH; assumption.
Qed.

(** The rows of [users] a session may select, filtered by an id. *)
Lemma select_users_by_id (db : DB) (uid id : uuid) :
  List.filter (fun u => u_id u =? id) (select_users db uid)
  = if uid =? id then List.filter (fun u => u_id u =? id) (users db) else [].
Proof.
  destruct (uid =? id) eqn:E.
  - apply N.eqb_eq in E. subst id. unfold select_users. apply filter_visible.
    intros u _ Hu. rls_eval. rewrite N.eqb_sym, Hu. reflexivity.
  - apply filter_none. intros u Hu. apply select_users_In in Hu as [_ Hu].
    rewrite Hu. exact E.
Qed.

(** An embedded profile is null unless it is the session's own. *)
Lemma embed_user_spec (db : DB) (uid id : uuid) (p : User) :
  Rest.embed_user db uid id = Some p -> In p (users db) /\ u_id p = uid /\ id = uid.
Proof.
  unfold Rest.embed_user. intros H. apply find_some in H as [Hin Hid].
  apply select_users_In in Hin as [Hin Hu]. apply N.eqb_eq in Hid.
  repeat split; congruence.
Qed.

Lemma embed_user_other (db : DB) (uid id : uuid) :
  id <> uid -> Rest.embed_user db uid id = None.
Proof.
  intros Hne. destruct (Rest.embed_user db uid id) as [p|] eqn:E; [|reflexivity].
  apply embed_user_spec in E. tauto.
Qed.

(** X1.  The doctor's chat page can load only the signed-in user's own
    profile: for the id of any other user, the [users] policy leaves the
    select without a row, [.single()] fails, and the page navigates back to
    the dashboard instead of setting the patient. *)
Theorem fetchPatient_loads_only_own_profile (db : DB) (user : User) (patientId : uuid) :
  users_pkey db -> In user (users db) ->
  (patientId = u_id user ->
   DoctorChat.fetchPatient db (is_uuid patientId) user = DoctorChat.setPatient user) /\
  (patientId <> u_id user ->
   DoctorChat.fetchPatient db (is_uuid patientId) user = DoctorChat.navigate_dashboard).
Proof.
  intros Hpk Hu. unfold DoctorChat.fetchPatient, Rest.users_by_id. cbn [uuid_in].
  rewrite select_users_by_id. split.
  - intros ->. rewrite N.eqb_refl.
    rewrite (pkey_filter_singleton u_id (users db) user Hpk Hu). reflexivity.
  - intros Hne. apply not_eq_sym, N.eqb_neq in Hne. rewrite Hne. reflexivity.
Qed.

Lemma fetchPatient_loads_only_own_profile_witness :
  users_pkey Demo.db /\ In Demo.dr (users Demo.db) /\
  Demo.patient_id <> u_id Demo.dr /\
  DoctorChat.fetchPatient Demo.db (is_uuid Demo.patient_id) Demo.dr
  = DoctorChat.navigate_dashboard.
Proof.
  assert (Hpk : users_pkey Demo.db).
  { unfold users_pkey. simpl. repeat constructor; simpl; intuition discriminate. }
  assert (Hu : In Demo.dr (users Demo.db)) by (simpl; auto).
  assert (Hne : Demo.patient_id <> u_id Demo.dr) by (vm_compute; discriminate).
  split; [exact Hpk|]. split; [exact Hu|]. split; [exact Hne|].
  apply (proj2 (fetchPatient_loads_only_own_profile Demo.db Demo.dr Demo.patient_id Hpk Hu)
           Hne).
Defined.

Lemma links_select_spec (db : DB) (uid : uuid) (l : DoctorPatientLink) :
  passes_using links_policies SELECT db uid l = true <->
  l_doctor_id l = uid \/ l_patient_id l = uid.
Proof. rls_eval. rewrite orb_false_r, orb_true_iff, !N.eqb_eq. tauto. Qed.

Lemma single_Data {A} (rows : list A) (row : A) :
  Rest.single (Ok rows) = Rest.Data row -> rows = [row].
Proof.
  destruct rows as [|x [|y rows]]; simpl; try discriminate.
  intros [= ->]. reflexivity.
Qed.

(** X2.  The patient's chat page never gets its doctor: when no link
    names the signed-in user as their own doctor, [fetchDoctor] either
    fails or gives [setDoctor] a null profile, because the [users] policy
    hides the linked doctor's row.  The page's [doctor] therefore stays
    null: the thread request is rejected (its filter holds the text
    [undefined]), so the list of messages is never set, and [sendMessage]
    ignores every text. *)
Theorem fetchDoctor_hides_linked_doctor (db : DB) (P : User) (new_id : uuid)
    (now : timestamptz) (st : Chat.State) :
  (forall l, In l (doctor_patient_links db) ->
             l_patient_id l = u_id P -> l_doctor_id l <> u_id P) ->
  Chat.doctor st = None ->
  let st' := Chat.doctor_fetched st (Chat.fetchDoctor db (Some P)) in
  (Chat.fetchDoctor db (Some P) = None \/ Chat.fetchDoctor db (Some P) = Some None) /\
  Chat.doctor st' = None /\
  Chat.fetchMessages db (Chat.doctor st') (Some P) = None /\
  Chat.sendMessage db new_id now (Some P) st' = Chat.mkOutcome db st' [].
Proof.
  intros Hlinks Hst st'.
  assert (Hf : Chat.fetchDoctor db (Some P) = None \/
               Chat.fetchDoctor db (Some P) = Some None).
  { unfold Chat.fetchDoctor, Rest.doctors_of_patient. cbn [interpolate uuid_in].
    destruct (Rest.single _) as [[d|]|e] eqn:E; auto.
    exfalso. apply single_Data in E.
    assert (Hin : In (Some d)
                     (map (fun l => Rest.embed_user db (u_id P) (l_doctor_id l))
                        (List.filter (fun l => l_patient_id l =? u_id P)
                           (select_links db (u_id P))))).
    { rewrite E. simpl. auto. }
    apply in_map_iff in Hin as (l & Hd & Hl).
    apply filter_In in Hl as [Hl Hp]. apply select_links_In in Hl as [Hl _].
    apply N.eqb_eq in Hp. apply embed_user_spec in Hd as (_ & _ & Hd).
    exact (Hlinks l Hl Hp Hd). }
  assert (Hd : Chat.doctor st' = None).
  { subst st'. destruct Hf as [-> | ->]; simpl; auto. }
  split; [exact Hf|]. split; [exact Hd|]. split; [rewrite Hd; reflexivity|].
  unfold Chat.sendMessage. rewrite Hd.
  destruct (negb _); reflexivity.
Qed.

Lemma fetchDoctor_hides_linked_doctor_witness :
  let st := Chat.mkState [] (JS.lit "Hello") None true false in
  Chat.fetchDoctor Demo.db (Some Demo.pt) = Some None /\
  Chat.sendMessage Demo.db 0xD1 0 (Some Demo.pt)
    (Chat.doctor_fetched st (Chat.fetchDoctor Demo.db (Some Demo.pt)))
  = Chat.mkOutcome Demo.db
      (Chat.doctor_fetched st (Chat.fetchDoctor Demo.db (Some Demo.pt))) [].
Proof.
  intros st. split; [reflexivity|].
  refine (proj2 (proj2 (proj2
            (fetchDoctor_hides_linked_doctor Demo.db Demo.pt 0xD1 0 st _ _)))).
  - simpl. intros l [<- | []] _. vm_compute. discriminate.
  - reflexivity.
Defined.

(** X3.  The patient lists of the doctor's dashboard and of the checkups
    page hold one entry per link of the signed-in doctor, and every entry
    is null unless the link names the doctor as their own patient: the
    [users] policy hides the patients' profiles.  The dashboard's selected
    patient is the first entry. *)
Theorem fetchPatients_hides_profiles (db : DB) (D : User) :
  exists patientList,
    DoctorCheckups.fetchPatients db (Some D) = Some patientList /\
    DoctorDashboard.fetchPatients db (Some D) = Some (patientList, hd_error patientList) /\
    length patientList
    = length (List.filter (fun l => l_doctor_id l =? u_id D) (doctor_patient_links db)) /\
    (forall p, In (Some p) patientList -> In p (users db) /\ u_id p = u_id D) /\
    ((forall l, In l (doctor_patient_links db) ->
                l_doctor_id l = u_id D -> l_patient_id l <> u_id D) ->
     forall p, In p patientList -> p = None).
Proof.
  set (own := List.filter (fun l => l_doctor_id l =? u_id D) (doctor_patient_links db)).
  assert (Hown : List.filter (fun l => l_doctor_id l =? u_id D) (select_links db (u_id D))
                 = own).
  { unfold select_links. apply filter_visible. intros l _ Hl.
    apply links_select_spec. apply N.eqb_eq in Hl. auto. }
  exists (map (fun l => Rest.embed_user db (u_id D) (l_patient_id l)) own).
  split; [|split; [|split; [|split]]].
  - unfold DoctorCheckups.fetchPatients, Rest.patients_of_doctor.
    cbn [interpolate uuid_in]. rewrite Hown. reflexivity.
  - unfold DoctorDashboard.fetchPatients, Rest.patients_of_doctor.
    cbn [interpolate uuid_in]. rewrite Hown.
    destruct (map _ own); reflexivity.
  - apply length_map.
  - intros p Hp. apply in_map_iff in Hp as (l & Hp & _).
    apply embed_user_spec in Hp. tauto.
  - intros Hlinks p Hp. apply in_map_iff in Hp as (l & <- & Hl).
    apply filter_In in Hl as [Hl Hd]. apply N.eqb_eq in Hd.
    apply embed_user_other. exact (Hlinks l Hl Hd).
Qed.

Lemma fetchPatients_hides_profiles_witness :
  DoctorDashboard.fetchPatients Demo.db (Some Demo.dr) = Some ([None], Some None).
Proof.
  destruct (fetchPatients_hides_profiles Demo.db Demo.dr)
    as (patientList & _ & Hd & Hlen & _ & Hnone).
  assert (Hall : forall p, In p patientList -> p = None).
  { apply Hnone. simpl. intros l [<- | []] _. vm_compute. discriminate. }
  rewrite Hd. destruct patientList as [|p [|q rest]]; try discriminate Hlen.
  rewrite (Hall p) by (simpl; auto). reflexivity.
Defined.

(** ** Checkup lists *)

Lemma checkups_select_spec (db : DB) (uid : uuid) (k : Checkup) :
  passes_using checkups_policies SELECT db uid k = true <->
  c_doctor_id k = uid \/
  (c_patient_id k = uid /\
   exists u, In u (users db) /\ u_id u = uid /\ u_role u = patient).
Proof. rewrite checkups_using_any. apply checkups_policy_spec. Qed.

(** The doctor's own checkups are selected from all of [checkups]. *)
Lemma select_checkups_of_doctor (db : DB) (D : uuid) :
  List.filter (fun k => c_doctor_id k =? D) (select_checkups db D)
  = List.filter (fun k => c_doctor_id k =? D) (checkups db).
Proof.
  unfold select_checkups. apply filter_visible. intros k _ Hk.
  apply checkups_select_spec. apply N.eqb_eq in Hk. auto.
Qed.

(** X4.  The checkups page lists exactly the checkups whose [doctor_id] is
    the signed-in user, and the doctor's dashboard exactly those of them
    that are upcoming; both lists are in ascending order of [date]. *)
Theorem doctor_checkup_lists (db : DB) (D : User) :
  exists every coming,
    DoctorCheckups.fetchCheckups db (Some D) = Some every /\
    DoctorDashboard.fetchUpcomingCheckups db (Some D) = Some coming /\
    Permutation every (List.filter (fun k => c_doctor_id k =? u_id D) (checkups db)) /\
    StronglySorted (ascending_by c_date) every /\
    Permutation coming
      (List.filter (fun k => Status_eqb (c_status k) upcoming)
         (List.filter (fun k => c_doctor_id k =? u_id D) (checkups db))) /\
    StronglySorted (ascending_by c_date) coming /\
    (forall k, In k coming <-> In k every /\ c_status k = upcoming).
Proof.
  set (own := List.filter (fun k => c_doctor_id k =? u_id D) (checkups db)).
  exists (order c_date true own),
         (order c_date true (List.filter (fun k => Status_eqb (c_status k) upcoming) own)).
  split.
  { unfold DoctorCheckups.fetchCheckups, checkups_of_doctor. cbn [interpolate uuid_in].
    rewrite select_checkups_of_doctor. reflexivity. }
  split.
  { unfold DoctorDashboard.fetchUpcomingCheckups, Rest.upcoming_checkups.
    cbn [interpolate uuid_in]. rewrite select_checkups_of_doctor. reflexivity. }
  split; [apply order_Permutation|]. split; [apply order_ascending|].
  split; [apply order_Permutation|]. split; [apply order_ascending|].
  intros k. rewrite !order_In, filter_In, Status_eqb_eq. reflexivity.
Qed.

(** X5.  The patient's dashboard lists, in ascending order of [date], the
    upcoming checkups whose [patient_id] is the signed-in user when that
    user's role is patient; for a user whose role is doctor it lists only
    those in which the user is also the doctor. *)
Theorem patient_upcoming_checkups (db : DB) (P : User) :
  users_pkey db -> In P (users db) ->
  exists coming,
    PatientDashboard.fetchUpcomingCheckups db (Some P) = Some coming /\
    StronglySorted (ascending_by c_date) coming /\
    (forall k, In k coming <->
       In k (checkups db) /\ c_patient_id k = u_id P /\ c_status k = upcoming /\
       (u_role P = patient \/ c_doctor_id k = u_id P)) /\
    (u_role P = patient ->
     Permutation coming
       (List.filter (fun k => Status_eqb (c_status k) upcoming)
          (List.filter (fun k => c_patient_id k =? u_id P) (checkups db)))).
Proof.
  intros Hpk HP.
  assert (Hrole : (exists u, In u (users db) /\ u_id u = u_id P /\ u_role u = patient)
                  <-> u_role P = patient).
  { split.
    - intros (u & Hu & Hid & Hr).
      apply (pkey_injective u_id _ _ _ Hpk Hu HP) in Hid. congruence.
    - intros Hr. exists P. auto. }
  eexists. split.
  { unfold PatientDashboard.fetchUpcomingCheckups, Rest.upcoming_checkups.
    cbn [interpolate uuid_in]. reflexivity. }
  split; [apply order_ascending|]. split.
  - intros k. rewrite order_In, !filter_In, Status_eqb_eq, N.eqb_eq.
    unfold select_checkups. rewrite filter_In, checkups_select_spec, Hrole.
    intuition congruence.
  - intros Hr. rewrite order_Permutation. unfold select_checkups.
    rewrite (filter_visible (fun k => c_patient_id k =? u_id P)
               (passes_using checkups_policies SELECT db (u_id P)));
      [reflexivity|].
    intros k _ Hk. apply N.eqb_eq in Hk. apply checkups_select_spec.
    right. split; [exact Hk|]. apply Hrole, Hr.
Qed.

Lemma patient_upcoming_checkups_witness :
  users_pkey Demo.db /\ In Demo.pt (users Demo.db) /\ u_role Demo.pt = patient /\
  exists coming,
    PatientDashboard.fetchUpcomingCheckups Demo.db (Some Demo.pt) = Some coming /\
    Permutation coming (checkups Demo.db).
Proof.
  assert (Hpk : users_pkey Demo.db).
  { unfold users_pkey. simpl. repeat constructor; simpl; intuition discriminate. }
  assert (Hu : In Demo.pt (users Demo.db)) by (simpl; auto).
  split; [exact Hpk|]. split; [exact Hu|]. split; [reflexivity|].
  destruct (patient_upcoming_checkups Demo.db Demo.pt Hpk Hu) as (coming & Hf & _ & _ & Hp).
  exists coming. split; [exact Hf|]. exact (Hp eq_refl).
Defined.

(** ** Writing checkups *)

Lemma with_checkups_same (db : DB) : with_checkups db (checkups db) = db.
Proof. destruct db; reflexivity. Qed.

(** An update by the doctor of the one checkup with the given id: it
    succeeds, rewrites that row and leaves the others. *)
Lemma update_checkups_by_doctor (db : DB) (uid id : uuid) (set : Checkup -> Checkup)
    (k : Checkup) :
  checkups_pkey db -> In k (checkups db) -> c_id k = id -> c_doctor_id k = uid ->
  c_doctor_id (set k) = uid ->
  user_exists db (c_doctor_id (set k)) = true ->
  user_exists db (c_patient_id (set k)) = true ->
  update_checkups db uid id set
  = Ok (with_checkups db (map (fun x => if c_id x =? id then set x else x) (checkups db))).
Proof.
  intros Hpk Hk Hid Hd Hd' Hfd Hfp. unfold update_checkups.
  assert (Hq : forall x, c_doctor_id x = uid ->
                         passes_check checkups_policies UPDATE db uid x = true).
  { intros x Hx. rewrite checkups_check_any. apply checkups_policy_spec. auto. }
  assert (Ht : forall x, In x (checkups db) ->
             (c_id x =? id) && passes_using checkups_policies UPDATE db uid x
             = (c_id x =? c_id k)).
  { intros x Hx. rewrite Hid. destruct (c_id x =? id) eqn:E; [|reflexivity].
    apply N.eqb_eq in E. cbn [andb].
    assert (x = k) as -> by (apply (pkey_injective c_id _ _ _ Hpk Hx Hk); congruence).
    rewrite checkups_using_any. apply checkups_policy_spec. auto. }
  rewrite (filter_ext_in _ _ _ Ht), (pkey_filter_singleton c_id _ k Hpk Hk).
  cbn [map forallb]. rewrite (Hq _ Hd'), Hfd, Hfp. cbn [andb negb]. f_equal. f_equal.
  apply map_ext_in. intros x Hx. rewrite (Ht x Hx), Hid. reflexivity.
Qed.

Lemma status_of_not_upcoming (s : DoctorCheckups.StatusArg) :
  DoctorCheckups.status_of s <> upcoming.
Proof. destruct s; discriminate. Qed.

Lemma doctor_upcoming_In (db : DB) (user : User) (coming : list Checkup) (k : Checkup) :
  DoctorDashboard.fetchUpcomingCheckups db (Some user) = Some coming -> In k coming ->
  In k (checkups db) /\ c_status k = upcoming.
Proof.
  unfold DoctorDashboard.fetchUpcomingCheckups, Rest.upcoming_checkups.
  cbn [interpolate uuid_in]. intros Hc Hk.
  assert (E : coming = order c_date true
                (List.filter (fun k => Status_eqb (c_status k) upcoming)
                   (List.filter (fun k => c_doctor_id k =? u_id user)
                      (select_checkups db (u_id user))))) by congruence.
  rewrite E in Hk. apply order_In in Hk. unfold select_checkups in Hk.
  rewrite !filter_In, Status_eqb_eq in Hk. tauto.
Qed.

Lemma patient_upcoming_In (db : DB) (user : User) (coming : list Checkup) (k : Checkup) :
  PatientDashboard.fetchUpcomingCheckups db (Some user) = Some coming -> In k coming ->
  In k (checkups db) /\ c_status k = upcoming.
Proof.
  unfold PatientDashboard.fetchUpcomingCheckups, Rest.upcoming_checkups.
  cbn [interpolate uuid_in]. intros Hc Hk.
  assert (E : coming = order c_date true
                (List.filter (fun k => Status_eqb (c_status k) upcoming)
                   (List.filter (fun k => c_patient_id k =? u_id user)
                      (select_checkups db (u_id user))))) by congruence.
  rewrite E in Hk. apply order_In in Hk. unfold select_checkups in Hk.
  rewrite !filter_In, Status_eqb_eq in Hk. tauto.
Qed.

(** X6.  When the signed-in doctor sets the status of a checkup of theirs
    (in a database where [id] is the primary key of [checkups] and the
    checkup's doctor and patient are rows of [users]), the update succeeds:
    that row gets the requested status and every other row is left as it
    is, a success toast is raised, and the checkup is on no upcoming list
    any more, neither the doctor's nor any patient's. *)
Theorem updateCheckupStatus_by_doctor (db : DB) (user : User) (c : Checkup)
    (status : DoctorCheckups.StatusArg) :
  checkups_pkey db -> In c (checkups db) -> c_doctor_id c = u_id user ->
  user_exists db (c_doctor_id c) = true -> user_exists db (c_patient_id c) = true ->
  let out := DoctorCheckups.updateCheckupStatus db user (c_id c) status in
  checkups (DoctorCheckups.out_db out)
  = map (fun k => if c_id k =? c_id c
                  then DoctorCheckups.set_status (DoctorCheckups.status_of status) k
                  else k) (checkups db) /\
  DoctorCheckups.out_toasts out
  = [toast_success ("Checkup " ++ DoctorCheckups.status_name status ++ "!")] /\
  (forall coming k,
     DoctorDashboard.fetchUpcomingCheckups (DoctorCheckups.out_db out) (Some user)
     = Some coming ->
     In k coming -> c_id k <> c_id c) /\
  (forall P coming k,
     PatientDashboard.fetchUpcomingCheckups (DoctorCheckups.out_db out) (Some P)
     = Some coming ->
     In k coming -> c_id k <> c_id c).
Proof.
  intros Hpk Hc Hd Hfd Hfp out.
  pose proof (update_checkups_by_doctor db (u_id user) (c_id c)
                (DoctorCheckups.set_status (DoctorCheckups.status_of status)) c
                Hpk Hc eq_refl Hd Hd Hfd Hfp) as Hup.
  assert (Hout : out = DoctorCheckups.mkOutcome
            (with_checkups db
               (map (fun k => if c_id k =? c_id c
                              then DoctorCheckups.set_status (DoctorCheckups.status_of status) k
                              else k) (checkups db)))
            (DoctorCheckups.fetchCheckups
               (with_checkups db
                  (map (fun k => if c_id k =? c_id c
                                 then DoctorCheckups.set_status
                                        (DoctorCheckups.status_of status) k
                                 else k) (checkups db))) (Some user))
            [toast_success ("Checkup " ++ DoctorCheckups.status_name status ++ "!")]).
  { subst out. unfold DoctorCheckups.updateCheckupStatus. rewrite Hup. reflexivity. }
  assert (Hdone : forall k, In k (checkups (DoctorCheckups.out_db out)) ->
                            c_status k = upcoming -> c_id k <> c_id c).
  { rewrite Hout. simpl. intros k Hk Hs Hid.
    apply in_map_iff in Hk as (k0 & Hk0 & _).
    destruct (c_id k0 =? c_id c) eqn:E.
    - subst k. simpl in Hs. exact (status_of_not_upcoming status Hs).
    - subst k. apply N.eqb_neq in E. contradiction. }
  rewrite Hout at 1 2. simpl. split; [reflexivity|]. split; [reflexivity|]. split.
  - intros coming k Hf Hk. destruct (doctor_upcoming_In _ _ _ _ Hf Hk). auto.
  - intros P coming k Hf Hk. destruct (patient_upcoming_In _ _ _ _ Hf Hk). auto.
Qed.

Lemma updateCheckupStatus_by_doctor_witness :
  let c := mkCheckup 0xC1 Demo.doctor_id Demo.patient_id 1752624000
             (JS.lit "Regular Health Checkup") upcoming None 1752056118 in
  In c (checkups Demo.db) /\
  map c_status
    (checkups (DoctorCheckups.out_db
                 (DoctorCheckups.updateCheckupStatus Demo.db Demo.dr 0xC1
                    DoctorCheckups.to_completed)))
  = [completed].
Proof.
  intros c.
  assert (Hc : In c (checkups Demo.db)) by (left; reflexivity).
  split; [exact Hc|].
  destruct (updateCheckupStatus_by_doctor Demo.db Demo.dr c DoctorCheckups.to_completed)
    as (Hrows & _).
  - unfold checkups_pkey. simpl. repeat constructor; simpl; intuition.
  - exact Hc.
  - reflexivity.
  - reflexivity.
  - reflexivity.
  - change (c_id c) with 0xC1 in Hrows. rewrite Hrows. reflexivity.
Defined.

(** X7.  A signed-in user whose role is doctor cannot change the status
    of a checkup that is not theirs: when no checkup with the given id has
    the user as its doctor (there may be none with that id at all),
    [updateCheckupStatus] leaves the database exactly as it was.  The
    request matches no row, which is no error: the page still raises the
    success toast. *)
Theorem updateCheckupStatus_of_other_doctor (db : DB) (user : User) (checkupId : uuid)
    (status : DoctorCheckups.StatusArg) :
  users_pkey db -> In user (users db) -> u_role user = doctor ->
  (forall k, In k (checkups db) -> c_id k = checkupId -> c_doctor_id k <> u_id user) ->
  DoctorCheckups.updateCheckupStatus db user checkupId status
  = DoctorCheckups.mkOutcome db (DoctorCheckups.fetchCheckups db (Some user))
      [toast_success ("Checkup " ++ DoctorCheckups.status_name status ++ "!")].
Proof.
  intros Hpk Hu Hr Hother.
  assert (Ht : forall x, In x (checkups db) ->
             (c_id x =? checkupId)
             && passes_using checkups_policies UPDATE db (u_id user) x = false).
  { intros x Hx. destruct (c_id x =? checkupId) eqn:E; [|reflexivity]. cbn [andb].
    apply N.eqb_eq in E.
    destruct (passes_using checkups_policies UPDATE db (u_id user) x) eqn:Ep;
      [|reflexivity].
    exfalso. rewrite checkups_using_any in Ep. apply checkups_policy_spec in Ep.
    destruct Ep as [Hd | (_ & u & Hin & Hid & Hp)].
    - exact (Hother x Hx E Hd).
    - apply (pkey_injective u_id _ _ _ Hpk Hin Hu) in Hid. congruence. }
  assert (Hup : update_checkups db (u_id user) checkupId
                  (DoctorCheckups.set_status (DoctorCheckups.status_of status)) = Ok db).
  { unfold update_checkups. rewrite (filter_none _ _ Ht). cbn [map forallb negb].
    f_equal. transitivity (with_checkups db (checkups db));
      [f_equal | apply with_checkups_same].
    transitivity (map (fun x : Checkup => x) (checkups db)); [|apply map_id].
    apply map_ext_in. intros x Hx. rewrite (Ht x Hx). reflexivity. }
  unfold DoctorCheckups.updateCheckupStatus. rewrite Hup. reflexivity.
Qed.

Lemma updateCheckupStatus_of_other_doctor_witness :
  let other := mkUser 0x33 (JS.lit "other@gmail.com") (JS.lit "Dr. Other") doctor None 0 0 in
  let db := mkDB (other :: users Demo.db) [] (doctor_patient_links Demo.db) []
                 (checkups Demo.db) in
  DoctorCheckups.out_db
    (DoctorCheckups.updateCheckupStatus db other 0xC1 DoctorCheckups.to_cancelled) = db /\
  DoctorCheckups.out_toasts
    (DoctorCheckups.updateCheckupStatus db other 0xC1 DoctorCheckups.to_cancelled)
  = [toast_success "Checkup cancelled!"].
Proof.
  intros other db.
  rewrite (updateCheckupStatus_of_other_doctor db other 0xC1 DoctorCheckups.to_cancelled).
  - split; reflexivity.
  - unfold users_pkey. simpl. repeat constructor; simpl; intuition discriminate.
  - left. reflexivity.
  - reflexivity.
  - simpl. intros k [<- | []] _. vm_compute. discriminate.
Defined.

(** A checkup of the signed-in doctor is on the list of the checkups page. *)
Lemma fetchCheckups_contains (db : DB) (user : User) (k : Checkup) :
  In k (checkups db) -> c_doctor_id k = u_id user ->
  exists view, DoctorCheckups.fetchCheckups db (Some user) = Some view /\ In k view.
Proof.
  intros Hk Hd. eexists. split.
  - unfold DoctorCheckups.fetchCheckups, checkups_of_doctor. cbn [interpolate uuid_in].
    rewrite select_checkups_of_doctor. reflexivity.
  - apply order_In, filter_In. split; [exact Hk|]. apply N.eqb_eq, Hd.
Qed.

(** X8.  Scheduling a checkup needs no link between doctor and patient:
    when the signed-in user and the chosen patient are rows of [users],
    [handleSubmit] with no checkup being edited appends one row to
    [checkups], with the user as doctor, the chosen patient, status
    upcoming and empty notes stored as null, and raises the success toast;
    the new row is on the refreshed list of the page. *)
Theorem schedule_checkup_needs_no_link (db : DB) (new_id : uuid) (now : timestamptz)
    (user : User) (formData : DoctorCheckups.FormData) (patientId : uuid) :
  In user (users db) ->
  DoctorCheckups.patient_id formData = is_uuid patientId ->
  user_exists db patientId = true ->
  let row := mkCheckup new_id (u_id user) patientId (DoctorCheckups.date_time formData)
               (DoctorCheckups.purpose formData) upcoming
               (JS.or_null (DoctorCheckups.notes formData)) now in
  let out := DoctorCheckups.handleSubmit db new_id now (Some user) None formData in
  DoctorCheckups.out_db out = with_checkups db (checkups db ++ [row]) /\
  DoctorCheckups.out_toasts out = [toast_success "Checkup scheduled successfully!"] /\
  exists view, DoctorCheckups.out_checkups out = Some view /\ In row view.
Proof.
  intros Hu Hp Hex row out.
  assert (Hins : insert_checkup db (u_id user) new_id now
                   (DoctorCheckups.checkupData user formData)
                 = Ok (with_checkups db (checkups db ++ [row]))).
  { unfold insert_checkup, DoctorCheckups.checkupData.
    cbn [cd_patient_id cd_doctor_id cd_date cd_purpose cd_status cd_notes].
    rewrite Hp. cbn [uuid_in]. fold row.
    assert (Hc : passes_check checkups_policies INSERT db (u_id user) row = true).
    { rewrite checkups_check_any. apply checkups_policy_spec. left. reflexivity. }
    rewrite Hc. cbn [negb]. change (c_doctor_id row) with (u_id user).
    change (c_patient_id row) with patientId.
    rewrite (user_exists_In db user Hu), Hex. reflexivity. }
  subst out. unfold DoctorCheckups.handleSubmit. rewrite Hins.
  cbn [DoctorCheckups.out_db DoctorCheckups.out_toasts DoctorCheckups.out_checkups].
  split; [reflexivity|]. split; [reflexivity|].
  destruct (fetchCheckups_contains (with_checkups db (checkups db ++ [row])) user row)
    as (view & Hv & Hin).
  - simpl. apply in_or_app. right. left. reflexivity.
  - reflexivity.
  - exists view. auto.
Qed.

Lemma schedule_checkup_needs_no_link_witness :
  let unlinked := mkUser 0x44 (JS.lit "new@gmail.com") (JS.lit "New Patient") patient None 0 0 in
  let db := mkDB (unlinked :: users Demo.db) [] (doctor_patient_links Demo.db) [] [] in
  let formData := DoctorCheckups.mkFormData (is_uuid 0x44) 1752624000
                    (JS.lit "Annual Physical") [] in
  (forall l, In l (doctor_patient_links db) -> l_patient_id l <> 0x44) /\
  checkups (DoctorCheckups.out_db
              (DoctorCheckups.handleSubmit db 0xC5 1752056118 (Some Demo.dr) None formData))
  = [mkCheckup 0xC5 Demo.doctor_id 0x44 1752624000 (JS.lit "Annual Physical")
               upcoming None 1752056118].
Proof.
  intros unlinked db formData. split.
  - simpl. intros l [<- | []]. vm_compute. discriminate.
  - destruct (schedule_checkup_needs_no_link db 0xC5 1752056118 Demo.dr formData 0x44)
      as (Hdb & _).
    + simpl. auto.
    + reflexivity.
    + reflexivity.
    + rewrite Hdb. reflexivity.
Defined.

(** X9.  A checkup form the store rejects changes nothing: with no
    patient chosen (the select's empty value is not a uuid), or with a
    patient id that is no row of [users], [handleSubmit] with no checkup
    being edited leaves the database as it was, does not refresh the list,
    and raises one error toast. *)
Theorem schedule_checkup_rejected (db : DB) (new_id : uuid) (now : timestamptz)
    (user : User) (formData : DoctorCheckups.FormData) :
  (DoctorCheckups.patient_id formData = not_uuid ->
   DoctorCheckups.handleSubmit db new_id now (Some user) None formData
   = DoctorCheckups.mkOutcome db None
       [toast_error invalid_text_representation "Error saving checkup"]) /\
  (forall patientId,
     DoctorCheckups.patient_id formData = is_uuid patientId ->
     user_exists db patientId = false ->
     DoctorCheckups.handleSubmit db new_id now (Some user) None formData
     = DoctorCheckups.mkOutcome db None
         [toast_error foreign_key_violation "Error saving checkup"]).
Proof.
  split.
  - intros Hp. unfold DoctorCheckups.handleSubmit, insert_checkup, DoctorCheckups.checkupData.
    cbn [cd_patient_id]. rewrite Hp. reflexivity.
  - intros patientId Hp Hex.
    unfold DoctorCheckups.handleSubmit, insert_checkup, DoctorCheckups.checkupData.
    cbn [cd_patient_id cd_doctor_id cd_date cd_purpose cd_status cd_notes].
    rewrite Hp. cbn [uuid_in].
    rewrite checkups_check_any.
    assert (Hc : using_qual checkups_manage db (u_id user)
                   (mkCheckup new_id (u_id user) patientId
                      (DoctorCheckups.date_time formData) (DoctorCheckups.purpose formData)
                      upcoming (JS.or_null (DoctorCheckups.notes formData)) now) = true).
    { apply checkups_policy_spec. left. reflexivity. }
    rewrite Hc. cbn [negb c_doctor_id c_patient_id]. rewrite Hex, andb_false_r.
    reflexivity.
Qed.

Lemma schedule_checkup_rejected_witness :
  DoctorCheckups.handleSubmit Demo.db 0xC5 0 (Some Demo.dr) None
    (DoctorCheckups.mkFormData not_uuid 0 (JS.lit "Annual Physical") [])
  = DoctorCheckups.mkOutcome Demo.db None
      [toast_error invalid_text_representation "Error saving checkup"] /\
  DoctorCheckups.handleSubmit Demo.db 0xC5 0 (Some Demo.dr) None
    (DoctorCheckups.mkFormData (is_uuid 0x44) 0 (JS.lit "Annual Physical") [])
  = DoctorCheckups.mkOutcome Demo.db None
      [toast_error foreign_key_violation "Error saving checkup"].
Proof.
  split.
  - apply (proj1 (schedule_checkup_rejected Demo.db 0xC5 0 Demo.dr
                    (DoctorCheckups.mkFormData not_uuid 0 (JS.lit "Annual Physical") []))).
    reflexivity.
  - apply (proj2 (schedule_checkup_rejected Demo.db 0xC5 0 Demo.dr
                    (DoctorCheckups.mkFormData (is_uuid 0x44) 0 (JS.lit "Annual Physical") []))
             0x44); reflexivity.
Defined.

(** X10.  Saving the edit form resets the status: when the signed-in
    doctor submits the form for a checkup of theirs, the row with that id
    is rewritten with the form's patient, date, purpose and notes and with
    status upcoming, whatever its status was (completed and cancelled
    included); its id and creation time are kept and the other rows are
    left as they are. *)
Theorem edit_resets_status (db : DB) (new_id : uuid) (now : timestamptz) (user : User)
    (editingCheckup k : Checkup) (formData : DoctorCheckups.FormData) (patientId : uuid) :
  checkups_pkey db -> In user (users db) ->
  In k (checkups db) -> c_id k = c_id editingCheckup -> c_doctor_id k = u_id user ->
  DoctorCheckups.patient_id formData = is_uuid patientId ->
  user_exists db patientId = true ->
  let saved x := mkCheckup (c_id x) (u_id user) patientId
                   (DoctorCheckups.date_time formData) (DoctorCheckups.purpose formData)
                   upcoming (JS.or_null (DoctorCheckups.notes formData)) (c_created_at x) in
  let out := DoctorCheckups.handleSubmit db new_id now (Some user) (Some editingCheckup)
               formData in
  checkups (DoctorCheckups.out_db out)
  = map (fun x => if c_id x =? c_id editingCheckup then saved x else x) (checkups db) /\
  In (saved k) (checkups (DoctorCheckups.out_db out)) /\
  DoctorCheckups.out_toasts out = [toast_success "Checkup updated successfully!"].
Proof.
  intros Hpk Hu Hk Hid Hd Hp Hex saved out.
  assert (Hup : update_checkup_data db (u_id user) (c_id editingCheckup)
                  (DoctorCheckups.checkupData user formData)
                = Ok (with_checkups db
                        (map (fun x => if c_id x =? c_id editingCheckup then saved x else x)
                             (checkups db)))).
  { unfold update_checkup_data, DoctorCheckups.checkupData.
    cbn [cd_patient_id cd_doctor_id cd_date cd_purpose cd_status cd_notes].
    rewrite Hp. cbn [uuid_in].
    apply (update_checkups_by_doctor db (u_id user) (c_id editingCheckup) saved k
             Hpk Hk Hid Hd eq_refl (user_exists_In db user Hu) Hex). }
  subst out. unfold DoctorCheckups.handleSubmit. rewrite Hup.
  cbn [DoctorCheckups.out_db DoctorCheckups.out_toasts checkups with_checkups].
  split; [reflexivity|]. split; [|reflexivity].
  apply in_map_iff. exists k. split; [|exact Hk].
  rewrite Hid, N.eqb_refl. reflexivity.
Qed.

Lemma edit_resets_status_witness :
  let done := mkCheckup 0xC1 Demo.doctor_id Demo.patient_id 7 (JS.lit "Follow-up")
                        completed None 0 in
  let db := with_checkups Demo.db [done] in
  let formData := DoctorCheckups.mkFormData (is_uuid Demo.patient_id) 7
                    (JS.lit "Follow-up") [] in
  In done (checkups db) /\ c_status done = completed /\
  map c_status
    (checkups (DoctorCheckups.out_db
                 (DoctorCheckups.handleSubmit db 0xC9 0 (Some Demo.dr) (Some done) formData)))
  = [upcoming].
Proof.
  intros done db formData.
  assert (Hin : In done (checkups db)) by (left; reflexivity).
  split; [exact Hin|]. split; [reflexivity|].
  destruct (edit_resets_status db 0xC9 0 Demo.dr done done formData Demo.patient_id)
    as (Hrows & _).
  - unfold checkups_pkey. simpl. repeat constructor; simpl; intuition.
  - simpl. auto.
  - exact Hin.
  - reflexivity.
  - reflexivity.
  - reflexivity.
  - reflexivity.
  - rewrite Hrows. reflexivity.
Defined.

(** ** Messages: from sending to the threads *)

(** An insert by the signed-in user, naming themselves as sender and an
    existing user as receiver, is accepted. *)
Lemma insert_own_message (db : DB) (new_id : uuid) (now : timestamptz) (user : User)
    (receiver : uuid) (message : text) :
  In user (users db) -> user_exists db receiver = true ->
  insert_message db (u_id user) new_id now
    (mkMessageInsert (u_id user) (is_uuid receiver) message)
  = Ok (with_messages db
          (messages db ++ [mkMessage new_id (u_id user) receiver message now])).
Proof.
  intros Hu Hr. unfold insert_message.
  cbn [mi_receiver_id mi_sender_id mi_message uuid_in]. unfold message_row.
  assert (Hc : passes_check messages_policies INSERT db (u_id user)
                 (mkMessage new_id (u_id user) receiver message now) = true).
  { apply messages_insert_spec. reflexivity. }
  rewrite Hc. cbn [negb m_sender_id m_receiver_id].
  rewrite (user_exists_In db user Hu), Hr. reflexivity.
Qed.

Lemma thread_contains (db : DB) (a b : uuid) (m : Message) :
  In m (messages db) ->
  (m_sender_id m = a /\ m_receiver_id m = b) \/ (m_sender_id m = b /\ m_receiver_id m = a) ->
  In m (order m_timestamp true (List.filter (thread_filter a b) (messages db))).
Proof.
  intros Hm Hp. apply order_In, filter_In. split; [exact Hm|].
  apply thread_filter_spec, Hp.
Qed.

(** X11.  A message sent from the doctor's chat page reaches both
    threads, and no link between the two users is needed: when the signed-in
    user and the receiver are rows of [users], the text is not blank and no
    send is in progress, [sendMessage] appends the row (text trimmed) and
    raises no toast; it clears the input, and the refreshed thread on the
    page holds the new row; the receiver's chat page fetches it too, and no
    third principal may read it. *)
Theorem sent_message_reaches_both_threads (db : DB) (new_id : uuid) (now : timestamptz)
    (user : User) (receiver : uuid) (st : DoctorChat.State) :
  In user (users db) -> user_exists db receiver = true ->
  JS.trim (DoctorChat.newMessage st) <> [] -> DoctorChat.sending st = false ->
  let row := mkMessage new_id (u_id user) receiver (JS.trim (DoctorChat.newMessage st)) now in
  let out := DoctorChat.sendMessage db new_id now (Some (is_uuid receiver)) (Some user) st in
  DoctorChat.out_db out = with_messages db (messages db ++ [row]) /\
  DoctorChat.out_toasts out = [] /\
  DoctorChat.newMessage (DoctorChat.out_state out) = [] /\
  DoctorChat.sending (DoctorChat.out_state out) = false /\
  In row (DoctorChat.st_messages (DoctorChat.out_state out)) /\
  (forall R : User, u_id R = receiver ->
     exists rows, Chat.fetchMessages (DoctorChat.out_db out) (Some user) (Some R) = Some rows /\
                  In row rows) /\
  (forall X, X <> u_id user -> X <> receiver ->
             read_message (DoctorChat.out_db out) X row = Deny).
Proof.
  intros Hu Hr Ht Hs row out.
  set (db' := with_messages db (messages db ++ [row])).
  assert (Hrow : In row (messages db')).
  { simpl. apply in_or_app. right. left. reflexivity. }
  assert (Hout : out = DoctorChat.mkOutcome db'
            (DoctorChat.mkState
               (order m_timestamp true
                  (List.filter (thread_filter (u_id user) receiver) (messages db')))
               [] (DoctorChat.patient st) false false) []).
  { subst out. unfold DoctorChat.sendMessage.
    apply truthy_string_nonempty in Ht. rewrite Ht, Hs. cbn [negb].
    rewrite (insert_own_message db new_id now user receiver _ Hu Hr). fold row. fold db'.
    unfold DoctorChat.fetchMessages. rewrite messages_thread_own. reflexivity. }
  rewrite Hout. cbn [DoctorChat.out_db DoctorChat.out_toasts DoctorChat.out_state
                      DoctorChat.newMessage DoctorChat.sending DoctorChat.st_messages].
  repeat (split; [reflexivity|]).
  split; [apply thread_contains; [exact Hrow | left; split; reflexivity]|].
  split.
  - intros R HR. eexists. split.
    + unfold Chat.fetchMessages. cbn [interpolate option_map].
      rewrite messages_thread_own. reflexivity.
    + apply thread_contains; [exact Hrow|]. right. split; [reflexivity | symmetry; exact HR].
  - intros X Hx Hy. unfold read_message. apply access_Deny.
    destruct (passes_using messages_policies SELECT db' X row) eqn:E; [|reflexivity].
    apply messages_select_spec in E. simpl in E. destruct E; congruence.
Qed.

Lemma sent_message_reaches_both_threads_witness :
  let st := DoctorChat.mkState [] (JS.lit " How are you? ") None false false in
  let row := mkMessage 0xD1 Demo.doctor_id Demo.patient_id (JS.lit "How are you?") 5 in
  In Demo.dr (users Demo.db) /\
  exists rows,
    Chat.fetchMessages
      (DoctorChat.out_db
         (DoctorChat.sendMessage Demo.db 0xD1 5 (Some (is_uuid Demo.patient_id))
            (Some Demo.dr) st))
      (Some Demo.dr) (Some Demo.pt) = Some rows /\
    In row rows.
Proof.
  intros st row.
  assert (Hu : In Demo.dr (users Demo.db)) by (simpl; auto).
  split; [exact Hu|].
  destruct (sent_message_reaches_both_threads Demo.db 0xD1 5 Demo.dr Demo.patient_id st)
    as (_ & _ & _ & _ & _ & Hrecv & _).
  - exact Hu.
  - reflexivity.
  - vm_compute. discriminate.
  - reflexivity.
  - exact (Hrecv Demo.pt eq_refl).
Defined.

(** X12.  A send the store rejects keeps the typed text: when the
    receiver in the route is no row of [users], or is not a uuid at all,
    [sendMessage] leaves the database as it was, raises one error toast,
    and sets only [sending] back to false; the input is not cleared and
    the thread is not refreshed. *)
Theorem rejected_send_keeps_text (db : DB) (new_id : uuid) (now : timestamptz)
    (user : User) (patientId : UuidText) (st : DoctorChat.State) :
  JS.trim (DoctorChat.newMessage st) <> [] -> DoctorChat.sending st = false ->
  let kept := DoctorChat.mkState (DoctorChat.st_messages st) (DoctorChat.newMessage st)
                (DoctorChat.patient st) (DoctorChat.loading st) false in
  (patientId = not_uuid ->
   DoctorChat.sendMessage db new_id now (Some patientId) (Some user) st
   = DoctorChat.mkOutcome db kept
       [toast_error invalid_text_representation "Error sending message"]) /\
  (forall receiver, patientId = is_uuid receiver -> user_exists db receiver = false ->
   DoctorChat.sendMessage db new_id now (Some patientId) (Some user) st
   = DoctorChat.mkOutcome db kept
       [toast_error foreign_key_violation "Error sending message"]).
Proof.
  intros Ht Hs kept. apply truthy_string_nonempty in Ht. split.
  - intros ->. unfold DoctorChat.sendMessage. rewrite Ht, Hs. reflexivity.
  - intros receiver -> Hr. unfold DoctorChat.sendMessage. rewrite Ht, Hs.
    cbn [negb]. unfold insert_message.
    cbn [mi_receiver_id mi_sender_id mi_message uuid_in]. unfold message_row.
    assert (Hc : passes_check messages_policies INSERT db (u_id user)
                   (mkMessage new_id (u_id user) receiver
                      (JS.trim (DoctorChat.newMessage st)) now) = true).
    { apply messages_insert_spec. reflexivity. }
    rewrite Hc. cbn [negb m_sender_id m_receiver_id]. rewrite Hr, andb_false_r.
    reflexivity.
Qed.

Lemma rejected_send_keeps_text_witness :
  let st := DoctorChat.mkState [] (JS.lit "Hello") None false false in
  DoctorChat.sendMessage Demo.db 0xD1 5 (Some (is_uuid 0x44)) (Some Demo.dr) st
  = DoctorChat.mkOutcome Demo.db st
      [toast_error foreign_key_violation "Error sending message"].
Proof.
  intros st.
  apply (proj2 (rejected_send_keeps_text Demo.db 0xD1 5 Demo.dr (is_uuid 0x44) st
                  ltac:(vm_compute; discriminate) eq_refl) 0x44); reflexivity.
Defined.

(** ** Health logs: from a submission to the dashboards *)

(** In a list in descending order, a row later than all the others comes
    first. *)
Lemma latest_first {A} (key : A -> Z) (rows sorted : list A) (r : A) :
  Permutation sorted rows -> StronglySorted (descending_by key) sorted ->
  In r rows -> (forall x, In x rows -> x = r \/ (key x < key r)%Z) ->
  exists older, sorted = r :: older.
Proof.
  intros Hp Hs Hr Hlate.
  assert (Hrs : In r sorted) by (apply (Permutation_in r (Permutation_sym Hp)), Hr).
  destruct sorted as [|h older]; [destruct Hrs|].
  assert (Hh : In h rows) by (apply (Permutation_in h Hp); left; reflexivity).
  destruct (Hlate h Hh) as [-> | Hlt]; [eauto|].
  exfalso. destruct Hrs as [-> | Hin]; [lia|].
  apply StronglySorted_inv in Hs as [_ Hall].
  rewrite List.Forall_forall in Hall. specialize (Hall r Hin).
  unfold descending_by in Hall. lia.
Qed.

(** The history of [P] once [P] has submitted a log dated after all their
    others. *)
Lemma history_after_submission (db : DB) (P : User) (row : HealthLog) :
  h_user_id row = u_id P ->
  (forall h, In h (health_logs db) -> h_user_id h = u_id P -> (h_date h < h_date row)%Z) ->
  exists older,
    order h_date false
      (List.filter (fun h => h_user_id h =? u_id P) (health_logs db ++ [row]))
    = row :: older.
Proof.
  intros Hid Hlate.
  apply (latest_first h_date
           (List.filter (fun h => h_user_id h =? u_id P) (health_logs db ++ [row]))).
  - apply order_Permutation.
  - apply order_descending.
  - apply filter_In. split; [apply in_or_app; right; left; reflexivity|].
    apply N.eqb_eq, Hid.
  - intros x Hx. apply filter_In in Hx as [Hx Hp]. apply N.eqb_eq in Hp.
    apply in_app_or in Hx as [Hx | [<- | []]]; auto.
Qed.

Lemma handleSubmit_appends (db : DB) (new_id : uuid) (now : timestamptz) (P : User)
    (formData : LogHealth.FormData) :
  In P (users db) ->
  LogHealth.out_db (LogHealth.handleSubmit db new_id now (Some P) formData)
  = with_health_logs db
      (health_logs db ++ [health_log_row new_id now (LogHealth.insert_row P formData)]).
Proof.
  intros HP. unfold LogHealth.handleSubmit.
  rewrite (insert_own_health_log db new_id now P (LogHealth.insert_row P formData)
             HP eq_refl).
  reflexivity.
Qed.

(** What a linked doctor's dashboard fetches after such a submission. *)
Lemma summary_after_submission (db : DB) (new_id : uuid) (now : timestamptz) (P D : User)
    (formData : LogHealth.FormData) :
  In P (users db) ->
  (forall h, In h (health_logs db) -> h_user_id h = u_id P ->
             (h_date h < LogHealth.date formData)%Z) ->
  Spec.linked db D P ->
  exists older,
    DoctorDashboard.fetchPatientHealthLogs
      (LogHealth.out_db (LogHealth.handleSubmit db new_id now (Some P) formData))
      D (u_id P)
    = Some (health_log_row new_id now (LogHealth.insert_row P formData) :: older).
Proof.
  intros HP Hlate (HD & Hr & Hl). rewrite (handleSubmit_appends db new_id now P formData HP).
  set (row := health_log_row new_id now (LogHealth.insert_row P formData)).
  destruct (history_after_submission db P row eq_refl Hlate) as (older & Hh).
  unfold DoctorDashboard.fetchPatientHealthLogs.
  rewrite (health_logs_of_linked (with_health_logs db (health_logs db ++ [row])) D (u_id P)
             HD Hr Hl).
  cbn [health_logs with_health_logs]. rewrite Hh. exists (take 6 older). reflexivity.
Qed.

(** X13.  A submitted health log whose metrics fit the columns and whose
    date is after all the patient's other logs comes first everywhere: it
    heads the patient's history and the patient's dashboard list, and the
    list a linked doctor's dashboard
    fetches, so both dashboards show its stored metrics as the latest
    ones. *)
Theorem submitted_log_is_latest (db : DB) (new_id : uuid) (now : timestamptz)
    (P : User) (formData : LogHealth.FormData) :
  In P (users db) ->
  fits_columns (LogHealth.insert_row P formData) = true ->
  (forall h, In h (health_logs db) -> h_user_id h = u_id P ->
             (h_date h < LogHealth.date formData)%Z) ->
  let row := health_log_row new_id now (LogHealth.insert_row P formData) in
  let db' := LogHealth.out_db (LogHealth.handleSubmit db new_id now (Some P) formData) in
  let shown := DoctorDashboard.mkMetrics (h_steps row) (h_water_ml row)
                 (h_heart_rate row) (h_sleep_hours row) in
  (exists older, HealthHistory.fetchHealthLogs db' (Some P) = Some (row :: older)) /\
  (exists older, PatientDashboard.fetchHealthLogs db' (Some P) = Some (row :: older) /\
                 PatientDashboard.getLatestMetrics (row :: older) = shown) /\
  (forall D, Spec.linked db D P ->
     exists older, DoctorDashboard.fetchPatientHealthLogs db' D (u_id P)
                   = Some (row :: older) /\
                   DoctorDashboard.getPatientMetrics (row :: older) = shown).
Proof.
  intros HP _ Hlate row db' shown.
  assert (Hdb : db' = with_health_logs db (health_logs db ++ [row]))
    by apply (handleSubmit_appends db new_id now P formData HP).
  destruct (history_after_submission db P row eq_refl Hlate) as (older & Hh).
  split; [|split].
  - exists older. rewrite Hdb. unfold HealthHistory.fetchHealthLogs. cbn [interpolate].
    rewrite health_logs_of_own. cbn [health_logs with_health_logs]. rewrite Hh. reflexivity.
  - exists (take 6 older). split; [|reflexivity].
    rewrite Hdb. unfold PatientDashboard.fetchHealthLogs. cbn [interpolate].
    rewrite health_logs_of_own. cbn [health_logs with_health_logs]. rewrite Hh. reflexivity.
  - intros D HD.
    destruct (summary_after_submission db new_id now P D formData HP Hlate HD)
      as (olderD & HsD).
    exists olderD. split; [exact HsD | reflexivity].
Qed.

Lemma submitted_log_is_latest_witness :
  let formData := LogHealth.mkFormData 20278 (JS.lit "8500") (JS.lit "2000") (JS.lit "72")
                    (JS.lit "7.5") [] in
  Spec.linked Demo.db Demo.dr Demo.pt /\
  fits_columns (LogHealth.insert_row Demo.pt formData) = true /\
  exists older,
    DoctorDashboard.fetchPatientHealthLogs
      (LogHealth.out_db (LogHealth.handleSubmit Demo.db 0xB4 0 (Some Demo.pt) formData))
      Demo.dr (u_id Demo.pt)
    = Some (mkHealthLog 0xB4 Demo.patient_id 20278 (JS.Finite 8500 0) (JS.Finite 2000 0)
              (JS.Finite 72 0) (JS.Finite 75 (-1)) None 0 :: older).
Proof.
  intros formData.
  assert (Hl : Spec.linked Demo.db Demo.dr Demo.pt).
  { split; [simpl; auto|]. split; [reflexivity|].
    eexists. split; [left; reflexivity|]. split; reflexivity. }
  split; [exact Hl|]. split; [reflexivity|].
  destruct (submitted_log_is_latest Demo.db 0xB4 0 Demo.pt formData) as (_ & _ & HD).
  - simpl. auto.
  - reflexivity.
  - simpl. intros h [<- | [<- | [<- | []]]] _; simpl; lia.
  - destruct (HD Demo.dr Hl) as (older & Hs & _). exists older. exact Hs.
Defined.

(** X14.  A log submitted with every metric field empty or unparsable
    shows on a linked doctor's dashboard, while it is the patient's latest,
    as metrics 0, 0, 0 and 0 with exactly three alerts, in this order:
    insufficient sleep, low water intake, low activity level; no
    heart-rate alert is raised. *)
Theorem blank_submission_alerts (db : DB) (new_id : uuid) (now : timestamptz)
    (P D : User) (formData : LogHealth.FormData) :
  In P (users db) ->
  (forall h, In h (health_logs db) -> h_user_id h = u_id P ->
             (h_date h < LogHealth.date formData)%Z) ->
  Spec.linked db D P ->
  JS.parseInt (LogHealth.steps formData) = JS.NaN ->
  JS.parseInt (LogHealth.water_ml formData) = JS.NaN ->
  JS.parseInt (LogHealth.heart_rate formData) = JS.NaN ->
  JS.parseFloat (LogHealth.sleep_hours formData) = JS.NaN ->
  exists summary,
    DoctorDashboard.fetchPatientHealthLogs
      (LogHealth.out_db (LogHealth.handleSubmit db new_id now (Some P) formData))
      D (u_id P) = Some summary /\
    DoctorDashboard.getPatientMetrics summary
    = DoctorDashboard.mkMetrics JS.zero JS.zero JS.zero JS.zero /\
    DoctorDashboard.getHealthAlerts summary
    = [DoctorDashboard.mkAlert DoctorDashboard.warning "Insufficient sleep";
       DoctorDashboard.mkAlert DoctorDashboard.info "Low water intake";
       DoctorDashboard.mkAlert DoctorDashboard.info "Low activity level"].
Proof.
  intros HP Hlate HD Hs Hw Hh Hsl.
  destruct (summary_after_submission db new_id now P D formData HP Hlate HD)
    as (older & Hsum).
  eexists. split; [exact Hsum|].
  unfold DoctorDashboard.getPatientMetrics, DoctorDashboard.getHealthAlerts,
    health_log_row, LogHealth.insert_row.
  cbn [h_steps h_water_ml h_heart_rate h_sleep_hours hi_steps hi_water_ml hi_heart_rate
       hi_sleep_hours].
  rewrite Hs, Hw, Hh, Hsl. split; reflexivity.
Qed.

Lemma blank_submission_alerts_witness :
  let formData := LogHealth.mkFormData 20278 [] [] [] [] [] in
  exists summary,
    DoctorDashboard.fetchPatientHealthLogs
      (LogHealth.out_db (LogHealth.handleSubmit Demo.db 0xB4 0 (Some Demo.pt) formData))
      Demo.dr (u_id Demo.pt) = Some summary /\
    length (DoctorDashboard.getHealthAlerts summary) = 3%nat.
Proof.
  intros formData.
  destruct (blank_submission_alerts Demo.db 0xB4 0 Demo.pt Demo.dr formData)
    as (summary & Hs & _ & Ha).
  - simpl. auto.
  - simpl. intros h [<- | [<- | [<- | []]]] _; simpl; lia.
  - split; [simpl; auto|]. split; [reflexivity|].
    eexists. split; [left; reflexivity|]. split; reflexivity.
  - reflexivity.
  - reflexivity.
  - reflexivity.
  - reflexivity.
  - exists summary. split; [exact Hs|]. rewrite Ha. reflexivity.
Defined.

(** ** Numerals in the metric fields *)

Lemma digit_cases (d : N) :
  d < 10 -> d = 0 \/ d = 1 \/ d = 2 \/ d = 3 \/ d = 4 \/ d = 5 \/ d = 6 \/ d = 7 \/ d = 8 \/ d = 9.
Proof. lia. Qed.

Lemma digit_value_decimal (d : N) : d < 10 -> JS.digit_value (48 + d) = Some d.
Proof.
  intros Hd. apply digit_cases in Hd.
  repeat (destruct Hd as [-> | Hd]; [reflexivity|]). subst d. reflexivity.
Qed.

Lemma digits_prefix_decimal (ds : list N) (rest : JS.jsstring) :
  Forall (fun d => d < 10) ds ->
  match rest with
  | [] => True
  | c :: _ => forall d, JS.digit_value c = Some d -> 10 <= d
  end ->
  JS.digits_prefix 10 (Spec.decimal_text ds ++ rest) = ds.
Proof.
  intros Hds Hrest. induction Hds as [|d ds Hd _ IH]; simpl.
  - destruct rest as [|c r]; [reflexivity|]. simpl.
    destruct (JS.digit_value c) as [d|] eqn:E; [|reflexivity].
    specialize (Hrest d eq_refl). apply N.ltb_ge in Hrest. rewrite Hrest. reflexivity.
  - rewrite (digit_value_decimal d Hd).
    apply N.ltb_lt in Hd. rewrite Hd. f_equal. exact IH.
Qed.

(** [parseInt] reads a decimal numeral up to the first code unit that does
    not continue it. *)
Lemma parseInt_decimal (ds : list N) (rest : JS.jsstring) :
  ds <> [] -> Forall (fun d => d < 10) ds -> Spec.ends_numeral ds rest ->
  JS.parseInt (Spec.decimal_text ds ++ rest) = JS.Finite (JS.digits_to_Z 10 ds) 0.
Proof.
  intros Hne Hds Hend.
  assert (Hrest : match rest with
                  | [] => True
                  | c :: _ => forall d, JS.digit_value c = Some d -> 10 <= d
                  end).
  { destruct rest; [exact I | apply Hend]. }
  pose proof (digits_prefix_decimal ds rest Hds Hrest) as Hp.
  destruct ds as [|d0 ds']; [congruence|].
  assert (Hd0 : d0 < 10) by (inversion Hds; assumption).
  assert (Hds' : Forall (fun d => d < 10) ds') by (inversion Hds; assumption).
  assert (Hgo : forall tail,
            JS.digits_prefix 10 (48 + d0 :: tail) = d0 :: ds' ->
            (d0 = 0 -> match tail with
                       | x :: _ => (x =? 120) || (x =? 88) = false
                       | [] => True
                       end) ->
            JS.parseInt (48 + d0 :: tail) = JS.Finite (JS.digits_to_Z 10 (d0 :: ds')) 0).
  { intros tail Htail Hx. apply digit_cases in Hd0.
    destruct Hd0 as [-> | Hd0].
    { change (48 + 0) with 48 in *. unfold JS.parseInt. simpl JS.trimStart.
      cbn [JS.strip_sign]. destruct tail as [|x r].
      - rewrite Htail. reflexivity.
      - rewrite (Hx eq_refl), Htail. reflexivity. }
    assert (Hc : exists c, 48 + d0 = c /\
                   (c = 49 \/ c = 50 \/ c = 51 \/ c = 52 \/ c = 53 \/ c = 54 \/
                    c = 55 \/ c = 56 \/ c = 57)).
    { exists (48 + d0). split; [reflexivity | lia]. }
    destruct Hc as (c & Hc & Hcs). rewrite Hc in *. clear Hc Hx.
    repeat (destruct Hcs as [-> | Hcs];
            [unfold JS.parseInt; simpl JS.trimStart; cbn [JS.strip_sign];
             rewrite Htail; reflexivity|]).
    subst c. unfold JS.parseInt. simpl JS.trimStart. cbn [JS.strip_sign].
    rewrite Htail. reflexivity. }
  apply Hgo; [exact Hp|].
  intros ->. simpl. destruct ds' as [|d1 ds''].
  - simpl. destruct rest as [|c r]; [exact I|].
    destruct Hend as [_ Hx]. destruct (Hx eq_refl) as [H1 H2].
    apply N.eqb_neq in H1, H2. rewrite H1, H2. reflexivity.
  - simpl. assert (Hd1 : d1 < 10) by (inversion Hds'; assumption).
    apply orb_false_iff. split; apply N.eqb_neq; lia.
Qed.

Lemma or_else_integer (z : Z) : JS.or_else (JS.Finite z 0) JS.zero = JS.Finite z 0.
Proof.
  unfold JS.or_else, JS.truthy. destruct (z =? 0)%Z eqn:E; [|reflexivity].
  apply Z.eqb_eq in E. subst z. reflexivity.
Qed.

(** X15.  An integer metric field that starts with a decimal numeral of
    value at most 2^53 is submitted as the number its digits denote, and
    whatever follows the digits is dropped (a fraction is cut off, not
    rounded; units are ignored): this holds for [steps], [water_ml] and
    [heart_rate]. *)
Theorem integer_field_reads_leading_numeral (user : User) (formData : LogHealth.FormData)
    (ds : list N) (rest : JS.jsstring) :
  ds <> [] -> Forall (fun d => d < 10) ds -> Spec.ends_numeral ds rest ->
  (JS.digits_to_Z 10 ds <= 2 ^ 53)%Z ->
  let text := Spec.decimal_text ds ++ rest in
  let value := JS.Finite (JS.digits_to_Z 10 ds) 0 in
  (LogHealth.steps formData = text ->
   hi_steps (LogHealth.insert_row user formData) = value) /\
  (LogHealth.water_ml formData = text ->
   hi_water_ml (LogHealth.insert_row user formData) = value) /\
  (LogHealth.heart_rate formData = text ->
   hi_heart_rate (LogHealth.insert_row user formData) = value).
Proof.
  intros Hne Hds Hend _ text value.
  pose proof (parseInt_decimal ds rest Hne Hds Hend) as Hp. fold text in Hp.
  unfold LogHealth.insert_row. cbn [hi_steps hi_water_ml hi_heart_rate].
  repeat split; intros ->; rewrite Hp; apply or_else_integer.
Qed.

Lemma integer_field_reads_leading_numeral_witness :
  let formData := LogHealth.mkFormData 20278 (JS.lit "8500.9 steps") [] [] [] [] in
  LogHealth.steps formData = Spec.decimal_text [8; 5; 0; 0] ++ JS.lit ".9 steps" /\
  hi_steps (LogHealth.insert_row Demo.pt formData) = JS.Finite 8500 0.
Proof.
  intros formData. split; [reflexivity|].
  refine (proj1 (integer_field_reads_leading_numeral Demo.pt formData [8; 5; 0; 0]
                   (JS.lit ".9 steps") _ _ _ _) eq_refl).
  - discriminate.
  - repeat constructor.
  - simpl. split; [intros d Hd; discriminate Hd | intros H; discriminate H].
  - vm_compute. discriminate.
Defined.

(** ** What the policies leave closed *)

(** X16.  Health logs are written by their owner only: for insert, update
    and delete, a row passes the policies, as an existing row and as a row
    written, exactly when its [user_id] is the session's id.  A doctor's
    link to the patient grants reading and nothing else: an insert naming
    another user, with metrics that fit the columns, is rejected with
    [insufficient_privilege]. *)
Theorem health_logs_written_by_owner_only (db : DB) (uid : uuid) :
  (forall c h, c <> SELECT ->
     (passes_using health_logs_policies c db uid h = true <-> uid = h_user_id h) /\
     (passes_check health_logs_policies c db uid h = true <-> uid = h_user_id h)) /\
  (forall new_id now v, fits_columns v = true -> hi_user_id v <> uid ->
     insert_health_log db uid new_id now v = Err insufficient_privilege).
Proof.
  split.
  - intros c h Hc. destruct c; [congruence| | |]; rls_eval;
      rewrite !orb_false_r, N.eqb_eq; tauto.
  - intros new_id now v _ Hne. unfold insert_health_log.
    assert (Hc : passes_check health_logs_policies INSERT db uid
                   (health_log_row new_id now v) = false).
    { rls_eval. rewrite orb_false_r. apply N.eqb_neq. congruence. }
    rewrite Hc. reflexivity.
Qed.

Lemma health_logs_written_by_owner_only_witness :
  read_health_log Demo.db Demo.doctor_id
    (mkHealthLog 0xB9 Demo.patient_id 20278 JS.zero JS.zero JS.zero JS.zero None 0) = Allow /\
  insert_health_log Demo.db Demo.doctor_id 0xB9 0
    (mkHealthLogInsert Demo.patient_id 20278 JS.zero JS.zero JS.zero JS.zero None)
  = Err insufficient_privilege.
Proof.
  split; [reflexivity|].
  apply (proj2 (health_logs_written_by_owner_only Demo.db Demo.doctor_id)).
  - reflexivity.
  - vm_compute. discriminate.
Defined.

(** X17.  A thread cannot be read from outside: in the session of a
    principal who is neither of the two, the request for the thread of a
    and b returns no row, whatever [messages] holds. *)
Theorem thread_closed_to_third_party (db : DB) (X a b : uuid) :
  X <> a -> X <> b ->
  messages_thread db X (is_uuid a) (is_uuid b) = Ok [].
Proof.
  intros Ha Hb. unfold messages_thread. cbn [uuid_in].
  rewrite (filter_none (thread_filter a b) (select_messages db X)); [reflexivity|].
  intros m Hm. unfold select_messages in Hm. apply filter_In in Hm as [_ Hm].
  apply messages_select_spec in Hm.
  destruct (thread_filter a b m) eqn:E; [|reflexivity].
  apply thread_filter_spec in E. exfalso. destruct Hm, E as [[? ?] | [? ?]]; congruence.
Qed.

Lemma thread_closed_to_third_party_witness :
  let m := mkMessage 0xD1 Demo.patient_id Demo.doctor_id (JS.lit "Hello") 5 in
  messages_thread (with_messages Demo.db [m]) 0x33
    (is_uuid Demo.patient_id) (is_uuid Demo.doctor_id) = Ok [].
Proof.
  intros m. apply thread_closed_to_third_party; vm_compute; discriminate.
Defined.

(** X18.  Without a link there is nothing to see: for a signed-in user
    who is not the patient and is the doctor of no link to the patient,
    the dashboard's health-log request returns the empty list, whatever
    logs the patient has. *)
Theorem summary_empty_without_link (db : DB) (Z : User) (patientId : uuid) :
  u_id Z <> patientId ->
  (forall l, In l (doctor_patient_links db) ->
             l_doctor_id l = u_id Z -> l_patient_id l <> patientId) ->
  DoctorDashboard.fetchPatientHealthLogs db Z patientId = Some [].
Proof.
  intros Hne Hlinks. unfold DoctorDashboard.fetchPatientHealthLogs, health_logs_of.
  cbn [uuid_in].
  rewrite (filter_none (fun h => h_user_id h =? patientId) (select_health_logs db (u_id Z)));
    [reflexivity|].
  intros h Hh. unfold select_health_logs in Hh. apply filter_In in Hh as [_ Hh].
  apply health_logs_select_spec in Hh. apply N.eqb_neq. intros Hp.
  destruct Hh as [Hown | (dpl & u & Hdpl & _ & _ & Hpat & Hdoc & _)].
  - congruence.
  - apply (Hlinks dpl Hdpl Hdoc). congruence.
Qed.

Lemma summary_empty_without_link_witness :
  let other := mkUser 0x33 (JS.lit "other@gmail.com") (JS.lit "Dr. Other") doctor None 0 0 in
  let db := mkDB (other :: users Demo.db) (health_logs Demo.db)
                 (doctor_patient_links Demo.db) [] [] in
  length (health_logs db) = 3%nat /\
  DoctorDashboard.fetchPatientHealthLogs db other Demo.patient_id = Some [].
Proof.
  intros other db. split; [reflexivity|].
  apply summary_empty_without_link.
  - vm_compute. discriminate.
  - simpl. intros l [<- | []] H. vm_compute in H. discriminate H.
Defined.

(** ** Alert thresholds *)

Lemma lt_integers (a b : Z) : JS.lt (JS.Finite a 0) (JS.int b) = (a <? b)%Z.
Proof. unfold JS.lt, JS.int. simpl. rewrite !Z.mul_1_r. reflexivity. Qed.

Lemma lt_tenths (a b : Z) : JS.lt (JS.Finite a (-1)) (JS.int b) = (a <? b * 10)%Z.
Proof. unfold JS.lt, JS.int. simpl. rewrite Z.mul_1_r. reflexivity. Qed.

(** X19.  The alert thresholds are strict.  For a latest log with integer
    heart rate, water and steps, and sleep given in tenths of an hour, the
    doctor's dashboard raises no alert exactly when the heart rate is at
    most 100, sleep at least 6.0 hours, water at least 1500 ml and steps at
    least 5000; the older logs of the list play no part. *)
Theorem no_alert_within_thresholds (latest : HealthLog) (older : list HealthLog)
    (heart tenths water walked : Z) :
  h_heart_rate latest = JS.Finite heart 0 ->
  h_sleep_hours latest = JS.Finite tenths (-1) ->
  h_water_ml latest = JS.Finite water 0 ->
  h_steps latest = JS.Finite walked 0 ->
  (DoctorDashboard.getHealthAlerts (latest :: older) = [] <->
   (heart <= 100 /\ 60 <= tenths /\ 1500 <= water /\ 5000 <= walked)%Z).
Proof.
  intros Hh Hs Hw Hst. unfold DoctorDashboard.getHealthAlerts, JS.gt.
  rewrite Hh, Hs, Hw, Hst, lt_tenths, !lt_integers.
  change (JS.lt (JS.int 100) (JS.Finite heart 0)) with (100 * 10 ^ 0 <? heart * 10 ^ 0)%Z.
  change (10 ^ 0)%Z with 1%Z. rewrite !Z.mul_1_r.
  destruct (100 <? heart)%Z eqn:E1, (tenths <? 6 * 10)%Z eqn:E2,
           (water <? 1500)%Z eqn:E3, (walked <? 5000)%Z eqn:E4;
    simpl; split; try discriminate;
    rewrite ?Z.ltb_lt, ?Z.ltb_ge in *; try lia; reflexivity.
Qed.

Lemma no_alert_within_thresholds_witness :
  DoctorDashboard.getHealthAlerts
    [mkHealthLog 0xB1 Demo.patient_id 20277 (JS.Finite 5000 0) (JS.Finite 1500 0)
       (JS.Finite 100 0) (JS.Finite 60 (-1)) None 0] = [].
Proof.
  apply (proj2 (no_alert_within_thresholds
                  (mkHealthLog 0xB1 Demo.patient_id 20277 (JS.Finite 5000 0)
                     (JS.Finite 1500 0) (JS.Finite 100 0) (JS.Finite 60 (-1)) None 0)
                  [] 100 60 1500 5000 eq_refl eq_refl eq_refl eq_refl)).
  lia.
Defined.

(** X20.  The patient's dashboard shows the head of the history: its
    list has at most 7 rows in descending order of [date], and followed by
    some older rows it lists exactly the patient's logs in descending
    order of [date]; the latest metrics are those of the first row, and
    all 0 when the patient has no log. *)
Theorem patient_dashboard_recent_logs (db : DB) (P : User) :
  let own := List.filter (fun h => h_user_id h =? u_id P) (health_logs db) in
  exists recent older,
    PatientDashboard.fetchHealthLogs db (Some P) = Some recent /\
    (length recent <= 7)%nat /\
    length recent = Nat.min 7 (length own) /\
    Permutation (recent ++ older) own /\
    StronglySorted (descending_by h_date) (recent ++ older) /\
    (own = [] ->
     PatientDashboard.getLatestMetrics recent
     = DoctorDashboard.mkMetrics JS.zero JS.zero JS.zero JS.zero) /\
    (forall h, In h own -> exists latest rest,
       recent = latest :: rest /\ (h_date h <= h_date latest)%Z /\
       PatientDashboard.getLatestMetrics recent
       = DoctorDashboard.mkMetrics (h_steps latest) (h_water_ml latest)
           (h_heart_rate latest) (h_sleep_hours latest)).
Proof.
  intros own. set (history := order h_date false own).
  assert (Hperm : Permutation history own) by apply order_Permutation.
  assert (Hsort : StronglySorted (descending_by h_date) history) by apply order_descending.
  exists (take 7 history), (drop 7 history).
  split.
  { unfold PatientDashboard.fetchHealthLogs. cbn [interpolate].
    rewrite health_logs_of_own. reflexivity. }
  rewrite take_drop, length_take, (Permutation_length Hperm).
  split; [lia|]. split; [reflexivity|]. split; [exact Hperm|]. split; [exact Hsort|].
  split.
  - intros Hown. rewrite Hown in Hperm. apply Permutation_nil_r in Hperm.
    rewrite Hperm. reflexivity.
  - intros h Hh. apply (Permutation_in h (Permutation_sym Hperm)) in Hh.
    destruct history as [|latest rest]; [destruct Hh|].
    exists latest, (take 6 rest). split; [reflexivity|]. split; [|reflexivity].
    destruct Hh as [<- | Hh]; [lia|].
    apply StronglySorted_inv in Hsort as [_ Hall].
    rewrite List.Forall_forall in Hall. exact (Hall h Hh).
Qed.

Lemma patient_dashboard_recent_logs_witness :
  exists latest rest,
    PatientDashboard.fetchHealthLogs Demo.db (Some Demo.pt) = Some (latest :: rest) /\
    h_date latest = 20277%Z.
Proof.
  destruct (patient_dashboard_recent_logs Demo.db Demo.pt)
    as (recent & older & Hf & _ & _ & _ & _ & _ & Hlatest).
  destruct (Hlatest (mkHealthLog 0xB1 Demo.patient_id 20277 (JS.Finite 8500 0)
                       (JS.Finite 2000 0) (JS.Finite 72 0) (JS.Finite 75 (-1)) None
                       1752056118))
    as (latest & rest & Hr & Hd & _).
  - left. reflexivity.
  - exists latest, rest. rewrite Hf, Hr. split; [reflexivity|].
    rewrite Hr in Hf. vm_compute in Hf. injection Hf as <- _. reflexivity.
Defined.

(** X21.  Health logs are only ever appended: two submissions of the same
    patient with metrics that fit the columns, also for one and the same
    date, leave every earlier row in place and add two rows after them,
    and the patient's history then
    holds both new rows next to all the earlier ones. *)
Theorem submissions_are_appended (db : DB) (id1 id2 : uuid) (now1 now2 : timestamptz)
    (P : User) (form1 form2 : LogHealth.FormData) :
  In P (users db) ->
  fits_columns (LogHealth.insert_row P form1) = true ->
  fits_columns (LogHealth.insert_row P form2) = true ->
  let row1 := health_log_row id1 now1 (LogHealth.insert_row P form1) in
  let row2 := health_log_row id2 now2 (LogHealth.insert_row P form2) in
  let db1 := LogHealth.out_db (LogHealth.handleSubmit db id1 now1 (Some P) form1) in
  let db2 := LogHealth.out_db (LogHealth.handleSubmit db1 id2 now2 (Some P) form2) in
  health_logs db2 = health_logs db ++ [row1; row2] /\
  exists before after,
    HealthHistory.fetchHealthLogs db (Some P) = Some before /\
    HealthHistory.fetchHealthLogs db2 (Some P) = Some after /\
    Permutation after (row1 :: row2 :: before).
Proof.
  intros HP _ _ row1 row2 db1 db2.
  assert (H1 : db1 = with_health_logs db (health_logs db ++ [row1]))
    by apply (handleSubmit_appends db id1 now1 P form1 HP).
  assert (HP1 : In P (users db1)) by (rewrite H1; exact HP).
  assert (H2 : db2 = with_health_logs db1 (health_logs db1 ++ [row2]))
    by apply (handleSubmit_appends db1 id2 now2 P form2 HP1).
  assert (Hlogs : health_logs db2 = health_logs db ++ [row1; row2]).
  { rewrite H2, H1. simpl. rewrite <- app_assoc. reflexivity. }
  split; [exact Hlogs|].
  eexists. eexists. split; [|split].
  - unfold HealthHistory.fetchHealthLogs. cbn [interpolate].
    rewrite health_logs_of_own. reflexivity.
  - unfold HealthHistory.fetchHealthLogs. cbn [interpolate].
    rewrite health_logs_of_own. reflexivity.
  - rewrite !order_Permutation, Hlogs, List.filter_app. simpl.
    change (h_user_id row1) with (u_id P). change (h_user_id row2) with (u_id P).
    rewrite N.eqb_refl.
    rewrite Permutation_app_comm. reflexivity.
Qed.

Lemma submissions_are_appended_witness :
  let form := LogHealth.mkFormData 20278 (JS.lit "100") [] [] [] [] in
  length (health_logs
            (LogHealth.out_db
               (LogHealth.handleSubmit
                  (LogHealth.out_db (LogHealth.handleSubmit Demo.db 0xB4 1 (Some Demo.pt) form))
                  0xB5 2 (Some Demo.pt) form))) = 5%nat.
Proof.
  intros form.
  destruct (submissions_are_appended Demo.db 0xB4 0xB5 1 2 Demo.pt form form) as [Hlogs _].
  - simpl. auto.
  - reflexivity.
  - reflexivity.
  - rewrite Hlogs. reflexivity.
Defined.
